(** * HTTP authentication extractors of [fastapi.security.http]

    A shallow embedding of [src/fastapi/security/http.py]: the classes
    [HTTPBase], [HTTPBasic], [HTTPBearer], [HTTPBasicClientCredentials] and
    [HTTPDigest], with the Python library functions they call
    ([str.lower], [str.partition], [base64.b64decode], [bytes.decode]).

    Conventions of the embedding.
    - A Python [str] is a [string]: one [ascii] per code point, so the code
      points are those below 256.  That is the range of a header value,
      which the request object decodes as Latin-1.
    - [bytes] is [list byte].
    - [Optional[T]] is [option T]; returning [None] is [Return None].
    - A call either returns or raises: [outcome].  [raise] and
      [try]/[except] are written out on that type. *)

From Stdlib Require Import NArith ZArith Ascii String List Bool Lia.
From Stdlib Require Import Strings.Byte.
From stdpp Require Import base option list strings gmap.

Local Open Scope N_scope.

(** ** Exceptions and outcomes *)

(** [fastapi.exceptions.HTTPException(status_code, detail, headers=None)]. *)
Record HTTPException := mkHTTPException {
  status_code : Z;
  detail : string;
  headers : option (gmap string string)
}.

(** The exceptions that the code of this module can meet: its own
    [HTTPException], and those of [b64decode] and [bytes.decode]. *)
Inductive exn :=
| HTTP (e : HTTPException)
| ValueError
| binascii_Error
| UnicodeDecodeError.

Inductive outcome (A : Type) :=
| Return (a : A)
| Raise (e : exn).
Arguments Return {A} a.
Arguments Raise {A} e.

Definition bind {A B} (m : outcome A) (k : A -> outcome B) : outcome B :=
  match m with
  | Return a => k a
  | Raise e => Raise e
  end.

Notation "'call!' x ':=' m 'in' k" := (bind m (fun x => k))
  (at level 10, x name, m at level 100, k at level 200).

(** [starlette.status]. *)
Definition HTTP_401_UNAUTHORIZED : Z := 401%Z.
Definition HTTP_403_FORBIDDEN : Z := 403%Z.

(** ** Python strings *)

(** Truth value of a [str]: false exactly for the empty string. *)
Definition truthy (s : string) : bool := negb (String.eqb s "").

(** Truth value of an [Optional[str]]: [None] is false. *)
Definition truthy_opt (o : option string) : bool :=
  match o with
  | None => false
  | Some s => truthy s
  end.

(** [str.lower] on one code point below 256: the letters [A]-[Z] and the
    Latin-1 capitals U+00C0-U+00DE (without the multiplication sign
    U+00D7) move up by 32; every other code point is unchanged. *)
Definition lower_char (c : ascii) : ascii :=
  let n := N_of_ascii c in
  if ((65 <=? n) && (n <=? 90))
     || ((192 <=? n) && (n <=? 222) && negb (n =? 215))
  then ascii_of_N (n + 32)
  else c.

Fixpoint lower (s : string) : string :=
  match s with
  | EmptyString => EmptyString
  | String c s' => String (lower_char c) (lower s')
  end.

(** [str.partition(sep)] for a separator of one character: the part before
    the first occurrence, the separator, and the part after it; when the
    separator does not occur, the string and two empty strings. *)
Fixpoint partition (sep : ascii) (s : string) : string * string * string :=
  match s with
  | EmptyString => (EmptyString, EmptyString, EmptyString)
  | String c s' =>
      if Ascii.eqb c sep then (EmptyString, String sep EmptyString, s')
      else
        match partition sep s' with
        | (_, EmptyString, _) => (s, EmptyString, EmptyString)
        | (before, found, after) => (String c before, found, after)
        end
  end.

(** ** The scheme/parameter splitter *)

(** Modelled from the spec: [fastapi.security.utils] is not among the
    sources.  The spec's splitter takes a raw header value, possibly empty
    or absent, and splits it on the first run of whitespace: the scheme is
    what stands before the run, the param everything after it, embedded
    whitespace included; an empty or absent value gives two empty strings,
    a value without whitespace gives the value and an empty param. *)
Fixpoint skip_whitespace (s : string) : string :=
  match s with
  | EmptyString => EmptyString
  | String c s' => if Ascii.is_space c then skip_whitespace s' else s
  end.

Fixpoint split_whitespace (s : string) : string * string :=
  match s with
  | EmptyString => (EmptyString, EmptyString)
  | String c s' =>
      if Ascii.is_space c then (EmptyString, skip_whitespace s')
      else let '(scheme, param) := split_whitespace s' in
           (String c scheme, param)
  end.

Definition get_authorization_scheme_param
    (authorization_header_value : option string) : string * string :=
  match authorization_header_value with
  | None => (EmptyString, EmptyString)
  | Some v => split_whitespace v
  end.

(** ** Requests, credentials and extractor objects *)

(** The one thing the extractors read of a request:
    [request.headers.get("Authorization")]. *)
Record Request := mkRequest {
  headers_get_Authorization : option string
}.

Record HTTPBasicCredentials := mkHTTPBasicCredentials {
  username : string;
  password : string
}.

Record HTTPAuthorizationCredentials := mkHTTPAuthorizationCredentials {
  scheme : string;
  credentials : string
}.

Record HTTPClientCredentials := mkHTTPClientCredentials {
  client_id : string;
  client_secret : string
}.

(** The OpenAPI model an extractor carries ([HTTPBaseModel] and
    [HTTPBearerModel] of [fastapi.openapi.models]): documentation only. *)
Record HTTPModel := mkHTTPModel {
  model_scheme : string;
  model_bearerFormat : option string;
  model_description : option string
}.

(** The attributes of an extractor object.  [HTTPBearer] and [HTTPDigest]
    never set [realm]; no method they have reads it. *)
Record HTTPBase := mkHTTPBase {
  model : HTTPModel;
  scheme_name : string;
  auto_error : bool;
  realm : option string
}.

(** [scheme_name or self.__class__.__name__]. *)
Definition scheme_name_or (scheme_name : option string) (class_name : string)
    : string :=
  if truthy_opt scheme_name then default class_name scheme_name
  else class_name.

Definition HTTPBase_init (scheme : string) (scheme_name realm description : option string)
    (auto_error : bool) : HTTPBase :=
  {| model := mkHTTPModel scheme None description;
     scheme_name := scheme_name_or scheme_name "HTTPBase";
     auto_error := auto_error;
     realm := realm |}.

Definition HTTPBasic_init (scheme_name realm description : option string)
    (auto_error : bool) : HTTPBase :=
  {| model := mkHTTPModel "basic" None description;
     scheme_name := scheme_name_or scheme_name "HTTPBasic";
     auto_error := auto_error;
     realm := realm |}.

Definition HTTPBearer_init (bearerFormat scheme_name description : option string)
    (auto_error : bool) : HTTPBase :=
  {| model := mkHTTPModel "bearer" bearerFormat description;
     scheme_name := scheme_name_or scheme_name "HTTPBearer";
     auto_error := auto_error;
     realm := None |}.

Definition HTTPBasicClientCredentials_init
    (scheme_name realm description : option string) (auto_error : bool)
    : HTTPBase :=
  {| model := mkHTTPModel "basic" None description;
     scheme_name := scheme_name_or scheme_name "HTTPBasicClientCredentials";
     auto_error := auto_error;
     realm := realm |}.

Definition HTTPDigest_init (scheme_name description : option string)
    (auto_error : bool) : HTTPBase :=
  {| model := mkHTTPModel "digest" None description;
     scheme_name := scheme_name_or scheme_name "HTTPDigest";
     auto_error := auto_error;
     realm := None |}.

(** ** The extractors that do not decode: base, Bearer, Digest *)

Definition not_authenticated_403 : HTTPException :=
  mkHTTPException HTTP_403_FORBIDDEN "Not authenticated" None.

Definition invalid_credentials_403 : HTTPException :=
  mkHTTPException HTTP_403_FORBIDDEN "Invalid authentication credentials" None.

(** [HTTPBase.__call__]. *)
Definition HTTPBase_call (self : HTTPBase) (request : Request)
    : outcome (option HTTPAuthorizationCredentials) :=
  let authorization := headers_get_Authorization request in
  let '(scheme, credentials) := get_authorization_scheme_param authorization in
  if negb (truthy_opt authorization && truthy scheme && truthy credentials) then
    if auto_error self then Raise (HTTP not_authenticated_403)
    else Return None
  else Return (Some (mkHTTPAuthorizationCredentials scheme credentials)).

(** [HTTPBearer.__call__]. *)
Definition HTTPBearer_call (self : HTTPBase) (request : Request)
    : outcome (option HTTPAuthorizationCredentials) :=
  let authorization := headers_get_Authorization request in
  let '(scheme, credentials) := get_authorization_scheme_param authorization in
  if negb (truthy_opt authorization && truthy scheme && truthy credentials) then
    if auto_error self then Raise (HTTP not_authenticated_403)
    else Return None
  else if negb (String.eqb (lower scheme) "bearer") then
    if auto_error self then Raise (HTTP invalid_credentials_403)
    else Return None
  else Return (Some (mkHTTPAuthorizationCredentials scheme credentials)).

(** [HTTPDigest.__call__]. *)
Definition HTTPDigest_call (self : HTTPBase) (request : Request)
    : outcome (option HTTPAuthorizationCredentials) :=
  let authorization := headers_get_Authorization request in
  let '(scheme, credentials) := get_authorization_scheme_param authorization in
  if negb (truthy_opt authorization && truthy scheme && truthy credentials) then
    if auto_error self then Raise (HTTP not_authenticated_403)
    else Return None
  else if negb (String.eqb (lower scheme) "digest") then
    Raise (HTTP invalid_credentials_403)
  else Return (Some (mkHTTPAuthorizationCredentials scheme credentials)).

(** ** base64 and ASCII, as [base64] and [binascii] implement them *)

(** Storing a C [int] into an [unsigned char]: the low eight bits. *)
Definition uchar (n : N) : byte :=
  match Byte.of_N (N.land n 255) with
  | Some b => b
  | None => x00
  end.

Definition BASE64_PAD : byte := "="%byte.

Definition table_b2a_base64 : string :=
  "ABCDEFGHIJKLMNOPQRSTUVWXYZabcdefghijklmnopqrstuvwxyz0123456789+/".

Definition b2a (n : N) : byte :=
  nth (N.to_nat n) (list_byte_of_string table_b2a_base64) x00.

(** [table_a2b_base64]: the value of a character of the alphabet, 0 for the
    pad character, and 255 (the C table's -1) for every other byte. *)
Definition table_a2b_base64 (c : byte) : N :=
  let n := Byte.to_N c in
  if (65 <=? n) && (n <=? 90) then n - 65
  else if (97 <=? n) && (n <=? 122) then n - 71
  else if (48 <=? n) && (n <=? 57) then n + 4
  else if n =? 43 then 62
  else if n =? 47 then 63
  else if n =? 61 then 0
  else 255.

(** The loop of [binascii.a2b_base64] with [strict_mode] off, as CPython has
    it since 3.11.  A byte outside the alphabet is skipped.  A pad character counts only once two characters
    of the current quad are read, and ends the input when it completes the
    quad.  At the end of the input an unfinished quad is an error. *)
Fixpoint a2b_base64_loop (ascii_data : list byte) (quad_pos leftchar pads : N)
    (bin_data : list byte) : outcome (list byte) :=
  match ascii_data with
  | [] => if quad_pos =? 0 then Return bin_data else Raise binascii_Error
  | this_ch :: rest =>
      if Byte.eqb this_ch BASE64_PAD then
        if 2 <=? quad_pos then
          if 4 <=? quad_pos + (pads + 1) then Return bin_data
          else a2b_base64_loop rest quad_pos leftchar (pads + 1) bin_data
        else a2b_base64_loop rest quad_pos leftchar pads bin_data
      else
        let this_ch := table_a2b_base64 this_ch in
        if 64 <=? this_ch then
          a2b_base64_loop rest quad_pos leftchar pads bin_data
        else if quad_pos =? 0 then
          a2b_base64_loop rest 1 this_ch 0 bin_data
        else if quad_pos =? 1 then
          a2b_base64_loop rest 2 (N.land this_ch 15) 0
            (bin_data ++ [uchar (N.lor (N.shiftl leftchar 2) (N.shiftr this_ch 4))])
        else if quad_pos =? 2 then
          a2b_base64_loop rest 3 (N.land this_ch 3) 0
            (bin_data ++ [uchar (N.lor (N.shiftl leftchar 4) (N.shiftr this_ch 2))])
        else
          a2b_base64_loop rest 0 0 0
            (bin_data ++ [uchar (N.lor (N.shiftl leftchar 6) this_ch)])
  end.

Definition a2b_base64 (data : list byte) : outcome (list byte) :=
  a2b_base64_loop data 0 0 0 [].

Definition is_ascii_byte (b : byte) : bool := Byte.to_N b <? 128.

Definition is_ascii_char (c : ascii) : bool := N_of_ascii c <? 128.

(** [str.isascii]. *)
Fixpoint isascii (s : string) : bool :=
  match s with
  | EmptyString => true
  | String c s' => is_ascii_char c && isascii s'
  end.

(** [base64.b64decode(s)] for a [str] argument, [validate] off: a string
    with a character that is not ASCII is a [ValueError]; the rest is
    [a2b_base64] on the bytes of the string. *)
Definition b64decode (s : string) : outcome (list byte) :=
  if isascii s then a2b_base64 (list_byte_of_string s)
  else Raise ValueError.

(** [bytes.decode("ascii")]. *)
Definition decode_ascii (b : list byte) : outcome string :=
  if forallb is_ascii_byte b then Return (string_of_list_byte b)
  else Raise UnicodeDecodeError.

(** [base64.b64encode]: three bytes give four characters of the alphabet;
    a last group of one or two bytes is completed with pad characters. *)
Fixpoint b64encode (s : list byte) : list byte :=
  match s with
  | [] => []
  | [a] =>
      let a := Byte.to_N a in
      [b2a (N.shiftr a 2); b2a (N.shiftl (N.land a 3) 4); BASE64_PAD; BASE64_PAD]
  | [a; b] =>
      let a := Byte.to_N a in
      let b := Byte.to_N b in
      [b2a (N.shiftr a 2);
       b2a (N.lor (N.shiftl (N.land a 3) 4) (N.shiftr b 4));
       b2a (N.shiftl (N.land b 15) 2);
       BASE64_PAD]
  | a :: b :: c :: rest =>
      let a := Byte.to_N a in
      let b := Byte.to_N b in
      let c := Byte.to_N c in
      b2a (N.shiftr a 2)
      :: b2a (N.lor (N.shiftl (N.land a 3) 4) (N.shiftr b 4))
      :: b2a (N.lor (N.shiftl (N.land b 15) 2) (N.shiftr c 6))
      :: b2a (N.land c 63)
      :: b64encode rest
  end.

(** [str.encode()], the UTF-8 of a string of code points below 256: one
    byte for an ASCII character, two bytes for any other. *)
Definition encode_char (c : ascii) : list byte :=
  let n := N_of_ascii c in
  if n <? 128 then [uchar n]
  else [uchar (N.lor 192 (N.shiftr n 6)); uchar (N.lor 128 (N.land n 63))].

Fixpoint encode (s : string) : list byte :=
  match s with
  | EmptyString => []
  | String c s' => encode_char c ++ encode s'
  end.

(** What a client sends for [user] and [pass]:
    [b64encode(f"{user}:{pass}".encode()).decode("ascii")]. *)
Definition basic_param (user pass : string) : string :=
  string_of_list_byte (b64encode (encode (user +:+ ":" +:+ pass))).

(** ** The Basic family *)

Definition double_quote : string := String "034"%char EmptyString.

(** The exception classes of
    [except (ValueError, UnicodeDecodeError, binascii.Error)]. *)
Definition caught (e : exn) : bool :=
  match e with
  | ValueError | UnicodeDecodeError | binascii_Error => true
  | HTTP _ => false
  end.

(** The [unauthorized_headers] of
    [get_http_basic_authorization_credentials]. *)
Definition unauthorized_headers (self : HTTPBase) : gmap string string :=
  if truthy_opt (realm self) then
    {[ "WWW-Authenticate" :=
         "Basic realm=" +:+ double_quote +:+ default "" (realm self)
           +:+ double_quote ]}
  else {[ "WWW-Authenticate" := "Basic" ]}.

Definition invalid_user_credentials_exc (self : HTTPBase) : HTTPException :=
  mkHTTPException HTTP_401_UNAUTHORIZED "Invalid authentication credentials"
    (Some (unauthorized_headers self)).

Definition not_authenticated_401 (self : HTTPBase) : HTTPException :=
  mkHTTPException HTTP_401_UNAUTHORIZED "Not authenticated"
    (Some (unauthorized_headers self)).

(** [HTTPBase.get_http_basic_authorization_credentials]. *)
Definition get_http_basic_authorization_credentials (self : HTTPBase)
    (request : Request) : outcome (option (string * string)) :=
  let authorization := headers_get_Authorization request in
  let '(scheme, param) := get_authorization_scheme_param authorization in
  if negb (truthy_opt authorization) || negb (String.eqb (lower scheme) "basic")
  then
    if auto_error self then Raise (HTTP (not_authenticated_401 self))
    else Return None
  else
    match (call! raw := b64decode param in decode_ascii raw) with
    | Raise e =>
        if caught e then Raise (HTTP (invalid_user_credentials_exc self))
        else Raise e
    | Return data =>
        let '(first_credential, separator, second_credential) :=
          partition ":" data in
        if negb (truthy separator) then
          Raise (HTTP (invalid_user_credentials_exc self))
        else Return (Some (first_credential, second_credential))
    end.

(** [HTTPBasic.__call__].  A pair is never false, so [not credentials]
    holds for [None] only. *)
Definition HTTPBasic_call (self : HTTPBase) (request : Request)
    : outcome (option HTTPBasicCredentials) :=
  call! credentials := get_http_basic_authorization_credentials self request in
  match credentials with
  | None => Return None
  | Some (username, password) =>
      Return (Some (mkHTTPBasicCredentials username password))
  end.

(** [HTTPBasicClientCredentials.__call__]. *)
Definition HTTPBasicClientCredentials_call (self : HTTPBase) (request : Request)
    : outcome (option HTTPClientCredentials) :=
  call! credentials := get_http_basic_authorization_credentials self request in
  match credentials with
  | None => Return None
  | Some (client_id, client_secret) =>
      Return (Some (mkHTTPClientCredentials client_id client_secret))
  end.

(** Every byte, in order: the domain of the exhaustive checks below. *)
Definition all_bytes : list byte :=
  map (fun n => uchar (N.of_nat n)) (seq 0 256).

Definition forall_byte (P : byte -> bool) : bool := forallb P all_bytes.

Definition forall_byte2 (P : byte -> byte -> bool) : bool :=
  forall_byte (fun a => forall_byte (P a)).

(** The three ways in which the param of a Basic header is rejected:
    [b64decode] raises, [decode("ascii")] raises, or the decoded text has
    no colon. *)
Inductive MalformedPayload (param : string) : Prop :=
| bad_base64 (e : exn) :
    b64decode param = Raise e -> MalformedPayload param
| not_text (raw : list byte) (e : exn) :
    b64decode param = Return raw -> decode_ascii raw = Raise e ->
    MalformedPayload param
| no_separator (raw : list byte) (data : string) :
    b64decode param = Return raw -> decode_ascii raw = Return data ->
    ~ In ":"%char (list_ascii_of_string data) ->
    MalformedPayload param.

(** ** The embedding on the inputs of the test suite *)

Example split_bearer :
  get_authorization_scheme_param (Some "Bearer testtoken") = ("Bearer", "testtoken").
Proof. reflexivity. Qed.

Example lower_mixed : lower "BaSiC" = "basic".
Proof. reflexivity. Qed.

Example partition_first : partition ":" "a:b:c" = ("a", ":", "b:c").
Proof. reflexivity. Qed.

Example partition_none : partition ":" "abc" = ("abc", "", "").
Proof. reflexivity. Qed.

Example basic_param_test : basic_param "test" "test" = "dGVzdDp0ZXN0".
Proof. reflexivity. Qed.

Example basic_test_test :
  HTTPBasic_call (HTTPBasic_init None None None true)
    (mkRequest (Some "Basic dGVzdDp0ZXN0"))
  = Return (Some (mkHTTPBasicCredentials "test" "test")).
Proof. reflexivity. Qed.

Example basic_invalid_base64 :
  HTTPBasic_call (HTTPBasic_init None None None true)
    (mkRequest (Some "Basic invalid_base64"))
  = Raise (HTTP (mkHTTPException 401 "Invalid authentication credentials"
                   (Some {[ "WWW-Authenticate" := "Basic" ]}))).
Proof. reflexivity. Qed.

(** ** Truth values and the splitter *)

Lemma truthy_nonempty (s : string) : s <> "" -> truthy s = true.
Proof. destruct s; [congruence | reflexivity]. Qed.

Lemma truthy_empty (s : string) : truthy s = false -> s = "".
Proof. destruct s; [reflexivity | discriminate]. Qed.

(** A header value whose split has a scheme is not the empty string. *)
Lemma split_scheme_nonempty (v scheme param : string) :
  get_authorization_scheme_param (Some v) = (scheme, param) ->
  scheme <> "" -> truthy_opt (Some v) = true.
Proof.
  destruct v as [|c v]; simpl.
  - intros [= <- _] Hs. congruence.
  - reflexivity.
Qed.

(** The guard that the base, Bearer and Digest extractors share. *)
Lemma guard_passes (v scheme param : string) :
  get_authorization_scheme_param (Some v) = (scheme, param) ->
  scheme <> "" -> param <> "" ->
  negb (truthy_opt (Some v) && truthy scheme && truthy param) = false.
Proof.
  intros Hsplit Hs Hp.
  rewrite (split_scheme_nonempty _ _ _ Hsplit Hs).
  now rewrite !truthy_nonempty.
Qed.

(** ** Extractors without decoding *)

(** C9. The base extractor checks no scheme: whenever the split of the
    header has a scheme and a param, both not empty, it returns the two
    exactly as split, whatever the scheme is and whatever scheme the
    extractor was constructed with. *)
Theorem HTTPBase_call_no_scheme_check
    (self : HTTPBase) (v scheme param : string) :
  get_authorization_scheme_param (Some v) = (scheme, param) ->
  scheme <> "" -> param <> "" ->
  HTTPBase_call self (mkRequest (Some v))
  = Return (Some (mkHTTPAuthorizationCredentials scheme param)).
Proof.
  intros Hsplit Hs Hp. unfold HTTPBase_call.
  cbn [headers_get_Authorization]. rewrite Hsplit.
  now rewrite (guard_passes _ _ _ Hsplit Hs Hp).
Qed.

Lemma HTTPBase_call_no_scheme_check_witness :
  HTTPBase_call (HTTPBase_init "basic" None None None true)
    (mkRequest (Some "Negotiate abc def"))
  = Return (Some (mkHTTPAuthorizationCredentials "Negotiate" "abc def")).
Proof.
  apply (HTTPBase_call_no_scheme_check _ "Negotiate abc def").
  - reflexivity.
  - discriminate.
  - discriminate.
Defined.

(** C8. A Bearer extractor, however constructed, returns for the header
    [Bearer testtoken] the credential with scheme [Bearer], as sent, and
    credentials [testtoken]. *)
Theorem HTTPBearer_call_testtoken
    (bearerFormat scheme_name description : option string) (auto_error : bool) :
  HTTPBearer_call (HTTPBearer_init bearerFormat scheme_name description auto_error)
    (mkRequest (Some "Bearer testtoken"))
  = Return (Some (mkHTTPAuthorizationCredentials "Bearer" "testtoken")).
Proof. reflexivity. Qed.

(** C4. On a header whose split has a scheme and a param, both not empty,
    with a scheme that is not [digest] in any case, the Digest extractor
    raises 403 [Invalid authentication credentials] for either value of
    [auto_error]; the Bearer extractor with [auto_error] off, on a scheme
    that is not [bearer], returns [None]. *)
Theorem HTTPDigest_call_mismatch_always_raises
    (self : HTTPBase) (v scheme param : string) :
  get_authorization_scheme_param (Some v) = (scheme, param) ->
  scheme <> "" -> param <> "" ->
  (lower scheme <> "digest" ->
   HTTPDigest_call self (mkRequest (Some v))
   = Raise (HTTP (mkHTTPException HTTP_403_FORBIDDEN
                    "Invalid authentication credentials" None)))
  /\ (lower scheme <> "bearer" -> auto_error self = false ->
      HTTPBearer_call self (mkRequest (Some v)) = Return None).
Proof.
  intros Hsplit Hs Hp. split.
  - intros Hne. unfold HTTPDigest_call.
    cbn [headers_get_Authorization]. rewrite Hsplit.
    rewrite (guard_passes _ _ _ Hsplit Hs Hp).
    apply String.eqb_neq in Hne. now rewrite Hne.
  - intros Hne Hauto. unfold HTTPBearer_call.
    cbn [headers_get_Authorization]. rewrite Hsplit.
    rewrite (guard_passes _ _ _ Hsplit Hs Hp).
    apply String.eqb_neq in Hne. now rewrite Hne, Hauto.
Qed.

Lemma HTTPDigest_call_mismatch_always_raises_witness :
  (HTTPDigest_call (HTTPDigest_init None None false)
     (mkRequest (Some "Other invalidauthorization"))
   = Raise (HTTP (mkHTTPException HTTP_403_FORBIDDEN
                    "Invalid authentication credentials" None)))
  /\ HTTPBearer_call (HTTPBearer_init None None None false)
       (mkRequest (Some "Other invalidauthorization"))
     = Return None.
Proof.
  split.
  - apply (HTTPDigest_call_mismatch_always_raises
             (HTTPDigest_init None None false)
             "Other invalidauthorization" "Other" "invalidauthorization");
      [reflexivity | discriminate | discriminate | discriminate].
  - apply (HTTPDigest_call_mismatch_always_raises
             (HTTPBearer_init None None None false)
             "Other invalidauthorization" "Other" "invalidauthorization");
      [reflexivity | discriminate | discriminate | discriminate | reflexivity].
Defined.

(** C3, as the code has it.  For either value of [auto_error] the Digest
    extractor accepts the header [Digest abc] and returns its scheme and
    credentials; 403 [Invalid authentication credentials] for either value
    of [auto_error] is what a header of another scheme gets, such as
    [Basic abc]. *)
Theorem HTTPDigest_call_digest_abc
    (scheme_name description : option string) (auto_error : bool) :
  HTTPDigest_call (HTTPDigest_init scheme_name description auto_error)
    (mkRequest (Some "Digest abc"))
  = Return (Some (mkHTTPAuthorizationCredentials "Digest" "abc"))
  /\ HTTPDigest_call (HTTPDigest_init scheme_name description auto_error)
       (mkRequest (Some "Basic abc"))
     = Raise (HTTP (mkHTTPException HTTP_403_FORBIDDEN
                      "Invalid authentication credentials" None)).
Proof. split; reflexivity. Qed.

(** C3 as stated fails: with [auto_error] on, and with it off, the header
    [Digest abc] is accepted, and nothing is raised. *)
Lemma HTTPDigest_call_digest_abc_not_forbidden :
  let accepted := Return (Some (mkHTTPAuthorizationCredentials "Digest" "abc")) in
  let forbidden :=
    Raise (HTTP (mkHTTPException HTTP_403_FORBIDDEN
                   "Invalid authentication credentials" None)) in
  HTTPDigest_call (HTTPDigest_init None None true) (mkRequest (Some "Digest abc"))
  = accepted
  /\ HTTPDigest_call (HTTPDigest_init None None false) (mkRequest (Some "Digest abc"))
     = accepted
  /\ accepted <> forbidden.
Proof. repeat split. discriminate. Qed.

(** ** No [Authorization] header *)

(** C6. With [auto_error] off and no [Authorization] header, every
    extractor returns [None] and raises nothing. *)
Theorem no_header_auto_error_off
    (scheme : string) (bearerFormat scheme_name realm description : option string) :
  let request := mkRequest None in
  HTTPBase_call (HTTPBase_init scheme scheme_name realm description false) request
  = Return None
  /\ HTTPBasic_call (HTTPBasic_init scheme_name realm description false) request
     = Return None
  /\ HTTPBasicClientCredentials_call
       (HTTPBasicClientCredentials_init scheme_name realm description false) request
     = Return None
  /\ HTTPBearer_call (HTTPBearer_init bearerFormat scheme_name description false) request
     = Return None
  /\ HTTPDigest_call (HTTPDigest_init scheme_name description false) request
     = Return None.
Proof. repeat split. Qed.

(** C1, as the code has it.  With [auto_error] on and no [Authorization]
    header, the base, Bearer and Digest extractors raise 403
    [Not authenticated] without headers; the Basic and
    BasicClientCredentials extractors raise 401 [Not authenticated] with
    the [WWW-Authenticate] header of their realm. *)
Theorem no_header_auto_error_on
    (scheme : string) (bearerFormat scheme_name realm description : option string) :
  let request := mkRequest None in
  let forbidden :=
    mkHTTPException HTTP_403_FORBIDDEN "Not authenticated" None in
  let unauthorized :=
    mkHTTPException HTTP_401_UNAUTHORIZED "Not authenticated"
      (Some {[ "WWW-Authenticate" :=
                 match realm with
                 | Some r =>
                     if truthy r
                     then "Basic realm=" +:+ double_quote +:+ r +:+ double_quote
                     else "Basic"
                 | None => "Basic"
                 end ]}) in
  HTTPBase_call (HTTPBase_init scheme scheme_name realm description true) request
  = Raise (HTTP forbidden)
  /\ HTTPBearer_call (HTTPBearer_init bearerFormat scheme_name description true) request
     = Raise (HTTP forbidden)
  /\ HTTPDigest_call (HTTPDigest_init scheme_name description true) request
     = Raise (HTTP forbidden)
  /\ HTTPBasic_call (HTTPBasic_init scheme_name realm description true) request
     = Raise (HTTP unauthorized)
  /\ HTTPBasicClientCredentials_call
       (HTTPBasicClientCredentials_init scheme_name realm description true) request
     = Raise (HTTP unauthorized).
Proof.
  cbv zeta. repeat split.
  - destruct realm as [[|c r]|]; reflexivity.
  - destruct realm as [[|c r]|]; reflexivity.
Qed.

(** C1 as stated fails for the Basic extractor: the failure is 401, with a
    challenge header, not 403. *)
Lemma no_header_basic_not_forbidden :
  exists e : HTTPException,
    HTTPBasic_call (HTTPBasic_init None None None true) (mkRequest None)
    = Raise (HTTP e)
    /\ status_code e = HTTP_401_UNAUTHORIZED
    /\ status_code e <> HTTP_403_FORBIDDEN
    /\ headers e = Some {[ "WWW-Authenticate" := "Basic" ]}.
Proof.
  eexists. split; [reflexivity|]. repeat split. discriminate.
Qed.

(** ** The Basic family *)

Lemma a2b_base64_loop_raise (data : list byte) :
  forall quad_pos leftchar pads bin_data e,
    a2b_base64_loop data quad_pos leftchar pads bin_data = Raise e ->
    e = binascii_Error.
Proof.
  induction data as [|this_ch rest IH]; intros quad_pos leftchar pads bin_data e;
    cbn [a2b_base64_loop].
  - destruct (quad_pos =? 0); congruence.
  - repeat match goal with
           | |- context [if ?c then _ else _] => destruct c
           end; eauto; discriminate.
Qed.

Lemma b64decode_raise (s : string) (e : exn) :
  b64decode s = Raise e -> e = ValueError \/ e = binascii_Error.
Proof.
  unfold b64decode, a2b_base64. destruct (isascii s).
  - intros H. right. eapply a2b_base64_loop_raise, H.
  - intros [= <-]. now left.
Qed.

Lemma decode_ascii_raise (raw : list byte) (e : exn) :
  decode_ascii raw = Raise e -> e = UnicodeDecodeError.
Proof. unfold decode_ascii. destruct (forallb _ _); congruence. Qed.

(** Whatever the [try] block raises, the [except] clause catches. *)
Lemma try_block_caught (param : string) (e : exn) :
  (call! raw := b64decode param in decode_ascii raw) = Raise e ->
  caught e = true.
Proof.
  destruct (b64decode param) as [raw|e'] eqn:Hb; cbn [bind].
  - intros H. now rewrite (decode_ascii_raise _ _ H).
  - intros [= <-]. now destruct (b64decode_raise _ _ Hb) as [-> | ->].
Qed.

Lemma partition_absent (sep : ascii) (s : string) :
  ~ In sep (list_ascii_of_string s) -> partition sep s = (s, "", "").
Proof.
  induction s as [|c s IH]; cbn [partition list_ascii_of_string]; [reflexivity|].
  intros Hnot. destruct (Ascii.eqb_spec c sep) as [-> | _].
  - exfalso. apply Hnot. now left.
  - rewrite IH; [reflexivity|]. intros Hin. apply Hnot. now right.
Qed.

(** The scheme test of [get_http_basic_authorization_credentials] passes
    for a header that splits into a scheme that is [basic] in some case. *)
Lemma basic_guard_passes (v scheme param : string) :
  get_authorization_scheme_param (Some v) = (scheme, param) ->
  lower scheme = "basic" ->
  negb (truthy_opt (Some v)) || negb (String.eqb (lower scheme) "basic") = false.
Proof.
  intros Hsplit Hlow.
  rewrite (split_scheme_nonempty _ _ _ Hsplit).
  - now rewrite Hlow.
  - intros ->. discriminate.
Qed.

(** A rejected param raises the one exception that
    [get_http_basic_authorization_credentials] builds beforehand. *)
Lemma get_http_basic_authorization_credentials_malformed
    (self : HTTPBase) (v scheme param : string) :
  get_authorization_scheme_param (Some v) = (scheme, param) ->
  lower scheme = "basic" ->
  MalformedPayload param ->
  get_http_basic_authorization_credentials self (mkRequest (Some v))
  = Raise (HTTP (invalid_user_credentials_exc self)).
Proof.
  intros Hsplit Hlow Hbad. unfold get_http_basic_authorization_credentials.
  cbn [headers_get_Authorization]. rewrite Hsplit.
  rewrite (basic_guard_passes _ _ _ Hsplit Hlow).
  destruct Hbad as [e Hb | raw e Hb Hd | raw data Hb Hd Hno].
  - rewrite Hb. cbn [bind].
    now destruct (b64decode_raise _ _ Hb) as [-> | ->].
  - rewrite Hb. cbn [bind]. rewrite Hd.
    now rewrite (decode_ascii_raise _ _ Hd).
  - rewrite Hb. cbn [bind]. rewrite Hd.
    now rewrite (partition_absent _ _ Hno).
Qed.

(** Every exception of [get_http_basic_authorization_credentials] is one of
    its two 401 exceptions. *)
Lemma get_http_basic_authorization_credentials_raise
    (self : HTTPBase) (request : Request) (e : exn) :
  get_http_basic_authorization_credentials self request = Raise e ->
  e = HTTP (not_authenticated_401 self)
  \/ e = HTTP (invalid_user_credentials_exc self).
Proof.
  unfold get_http_basic_authorization_credentials.
  destruct (get_authorization_scheme_param _) as [scheme param].
  destruct (_ || _).
  - destruct (auto_error self); [|discriminate]. intros [= <-]. now left.
  - destruct (call! raw := b64decode param in decode_ascii raw)
      as [data|e'] eqn:Htry.
    + destruct (partition ":" data) as [[first separator] second].
      destruct (negb (truthy separator)); [|discriminate].
      intros [= <-]. now right.
    + rewrite (try_block_caught _ _ Htry). intros [= <-]. now right.
Qed.

Lemma unauthorized_headers_realm (self : HTTPBase) (r : string) :
  realm self = Some r -> r <> "" ->
  unauthorized_headers self
  = {[ "WWW-Authenticate" := "Basic realm=" +:+ double_quote +:+ r +:+ double_quote ]}.
Proof.
  intros Hr Hne. unfold unauthorized_headers. rewrite Hr.
  cbn [truthy_opt default]. now rewrite (truthy_nonempty _ Hne).
Qed.

Lemma unauthorized_headers_no_realm (self : HTTPBase) :
  realm self = None \/ realm self = Some "" ->
  unauthorized_headers self = {[ "WWW-Authenticate" := "Basic" ]}.
Proof.
  intros [Hr | Hr]; unfold unauthorized_headers; now rewrite Hr.
Qed.

Lemma HTTPBasic_call_raise (self : HTTPBase) (request : Request) (e : exn) :
  HTTPBasic_call self request = Raise e ->
  get_http_basic_authorization_credentials self request = Raise e.
Proof.
  unfold HTTPBasic_call.
  destruct (get_http_basic_authorization_credentials self request)
    as [[[username password]|]|e']; cbn [bind]; congruence.
Qed.

Lemma HTTPBasicClientCredentials_call_raise
    (self : HTTPBase) (request : Request) (e : exn) :
  HTTPBasicClientCredentials_call self request = Raise e ->
  get_http_basic_authorization_credentials self request = Raise e.
Proof.
  unfold HTTPBasicClientCredentials_call.
  destruct (get_http_basic_authorization_credentials self request)
    as [[[client_id client_secret]|]|e']; cbn [bind]; congruence.
Qed.

(** C7. Whatever a Basic-family extractor raises, for a missing header, a
    scheme that is not Basic or a rejected param, is an [HTTPException]
    with status 401 whose headers are the one entry [WWW-Authenticate]:
    [Basic realm="r"] for an extractor with the realm [r], not empty, and
    [Basic] for one without a realm (or with the empty string for it). *)
Theorem basic_family_unauthorized_challenge
    (self : HTTPBase) (request : Request) (e : exn) :
  HTTPBasic_call self request = Raise e
  \/ HTTPBasicClientCredentials_call self request = Raise e ->
  exists h : HTTPException,
    e = HTTP h
    /\ status_code h = HTTP_401_UNAUTHORIZED
    /\ (forall r : string, realm self = Some r -> r <> "" ->
        headers h
        = Some {[ "WWW-Authenticate" :=
                    "Basic realm=" +:+ double_quote +:+ r +:+ double_quote ]})
    /\ (realm self = None \/ realm self = Some "" ->
        headers h = Some {[ "WWW-Authenticate" := "Basic" ]}).
Proof.
  intros Hraise.
  assert (Hget : get_http_basic_authorization_credentials self request = Raise e).
  { destruct Hraise as [H | H];
      [apply HTTPBasic_call_raise | apply HTTPBasicClientCredentials_call_raise];
      exact H. }
  destruct (get_http_basic_authorization_credentials_raise _ _ _ Hget)
    as [-> | ->]; eexists; (split; [reflexivity|]);
    unfold not_authenticated_401, invalid_user_credentials_exc;
    cbn [status_code headers];
    (split; [reflexivity|]); split.
  - intros r Hr Hne. now rewrite (unauthorized_headers_realm _ _ Hr Hne).
  - intros Hr. now rewrite (unauthorized_headers_no_realm _ Hr).
  - intros r Hr Hne. now rewrite (unauthorized_headers_realm _ _ Hr Hne).
  - intros Hr. now rewrite (unauthorized_headers_no_realm _ Hr).
Qed.

Lemma basic_family_unauthorized_challenge_witness :
  let self := HTTPBasic_init None (Some "simple") None true in
  exists h : HTTPException,
    HTTP (mkHTTPException 401 "Invalid authentication credentials"
            (Some {[ "WWW-Authenticate" :=
                       "Basic realm=" +:+ double_quote +:+ "simple" +:+ double_quote ]}))
    = HTTP h
    /\ status_code h = HTTP_401_UNAUTHORIZED
    /\ (forall r : string, realm self = Some r -> r <> "" ->
        headers h
        = Some {[ "WWW-Authenticate" :=
                    "Basic realm=" +:+ double_quote +:+ r +:+ double_quote ]})
    /\ (realm self = None \/ realm self = Some "" ->
        headers h = Some {[ "WWW-Authenticate" := "Basic" ]}).
Proof.
  apply (basic_family_unauthorized_challenge
           (HTTPBasic_init None (Some "simple") None true)
           (mkRequest (Some "Basic notabase64token"))).
  left. reflexivity.
Defined.

(** C2. For a header whose split has a scheme that is [basic] in some case
    and the param [p]: when [b64decode p] raises, or the decoded bytes are
    not ASCII text, or the decoded text has no colon, both extractors of
    the Basic family raise the same exception, 401
    [Invalid authentication credentials] with a [WWW-Authenticate] header;
    it is the same for the three causes, and it is neither the exception of
    a missing header or of another scheme (401 [Not authenticated]) nor
    the 403 of the other extractors. *)
Theorem basic_family_malformed_payload
    (self : HTTPBase) (v scheme p : string) :
  get_authorization_scheme_param (Some v) = (scheme, p) ->
  lower scheme = "basic" ->
  MalformedPayload p ->
  let failure :=
    mkHTTPException HTTP_401_UNAUTHORIZED "Invalid authentication credentials"
      (Some (unauthorized_headers self)) in
  HTTPBasic_call self (mkRequest (Some v)) = Raise (HTTP failure)
  /\ HTTPBasicClientCredentials_call self (mkRequest (Some v)) = Raise (HTTP failure)
  /\ is_Some (unauthorized_headers self !! "WWW-Authenticate")
  /\ failure <> not_authenticated_401 self
  /\ failure <> not_authenticated_403
  /\ failure <> invalid_credentials_403.
Proof.
  intros Hsplit Hlow Hbad failure.
  unfold HTTPBasic_call, HTTPBasicClientCredentials_call.
  rewrite (get_http_basic_authorization_credentials_malformed _ _ _ _ Hsplit Hlow Hbad).
  repeat split; try discriminate.
  unfold unauthorized_headers. destruct (truthy_opt (realm self));
    rewrite lookup_singleton_eq; eauto.
Qed.

Lemma basic_family_malformed_payload_witness :
  let self := HTTPBasic_init None None None true in
  let failure :=
    mkHTTPException 401 "Invalid authentication credentials"
      (Some {[ "WWW-Authenticate" := "Basic" ]}) in
  (* not base64 *)
  HTTPBasic_call self (mkRequest (Some "Basic invalid_base64")) = Raise (HTTP failure)
  (* base64 of the bytes ff 3a: not text *)
  /\ HTTPBasic_call self (mkRequest (Some "Basic /zo=")) = Raise (HTTP failure)
  (* base64 of [test], without a colon *)
  /\ HTTPBasic_call self (mkRequest (Some "Basic dGVzdA==")) = Raise (HTTP failure).
Proof.
  cbv zeta. split; [|split].
  - apply (basic_family_malformed_payload (HTTPBasic_init None None None true)
             "Basic invalid_base64" "Basic" "invalid_base64");
      [reflexivity | reflexivity |].
    apply (bad_base64 _ binascii_Error). reflexivity.
  - apply (basic_family_malformed_payload (HTTPBasic_init None None None true)
             "Basic /zo=" "Basic" "/zo=");
      [reflexivity | reflexivity |].
    apply (not_text _ [xff; x3a] UnicodeDecodeError); reflexivity.
  - apply (basic_family_malformed_payload (HTTPBasic_init None None None true)
             "Basic dGVzdA==" "Basic" "dGVzdA==");
      [reflexivity | reflexivity |].
    apply (no_separator _ [x74; x65; x73; x74] "test"); [reflexivity | reflexivity |].
    vm_compute. intuition discriminate.
Defined.

(** C10. With [auto_error] off, a Basic-family extractor returns [None] for
    a missing or empty header and for a scheme that is not [basic]; for a
    header with the scheme [basic] in some case and a rejected param it
    raises 401 [Invalid authentication credentials] all the same. *)
Theorem basic_family_auto_error_off
    (self : HTTPBase) (request : Request) (scheme p : string) :
  auto_error self = false ->
  get_authorization_scheme_param (headers_get_Authorization request) = (scheme, p) ->
  (truthy_opt (headers_get_Authorization request) = false
   \/ lower scheme <> "basic" ->
   HTTPBasic_call self request = Return None
   /\ HTTPBasicClientCredentials_call self request = Return None)
  /\ (truthy_opt (headers_get_Authorization request) = true ->
      lower scheme = "basic" ->
      MalformedPayload p ->
      let failure :=
        mkHTTPException HTTP_401_UNAUTHORIZED "Invalid authentication credentials"
          (Some (unauthorized_headers self)) in
      HTTPBasic_call self request = Raise (HTTP failure)
      /\ HTTPBasicClientCredentials_call self request = Raise (HTTP failure)).
Proof.
  intros Hauto Hsplit. split.
  - intros Hguard.
    assert (Hget : get_http_basic_authorization_credentials self request = Return None).
    { unfold get_http_basic_authorization_credentials. rewrite Hsplit.
      assert (Hcond : negb (truthy_opt (headers_get_Authorization request))
                      || negb (String.eqb (lower scheme) "basic") = true).
      { destruct Hguard as [-> | Hne]; [reflexivity|].
        apply String.eqb_neq in Hne. rewrite Hne. apply orb_true_r. }
      now rewrite Hcond, Hauto. }
    unfold HTTPBasic_call, HTTPBasicClientCredentials_call. now rewrite Hget.
  - intros Htruthy Hlow Hbad failure.
    destruct request as [[v|]]; cbn [headers_get_Authorization] in *;
      [|discriminate].
    unfold HTTPBasic_call, HTTPBasicClientCredentials_call.
    now rewrite (get_http_basic_authorization_credentials_malformed
                   _ _ _ _ Hsplit Hlow Hbad).
Qed.

Lemma basic_family_auto_error_off_witness :
  let self := HTTPBasic_init None None None false in
  (HTTPBasic_call self (mkRequest (Some "Bearer dGVzdDp0ZXN0")) = Return None
   /\ HTTPBasicClientCredentials_call self (mkRequest (Some "Bearer dGVzdDp0ZXN0"))
      = Return None)
  /\ (HTTPBasic_call self (mkRequest (Some "basic dGVzdA"))
      = Raise (HTTP (mkHTTPException 401 "Invalid authentication credentials"
                       (Some {[ "WWW-Authenticate" := "Basic" ]})))
      /\ HTTPBasicClientCredentials_call self (mkRequest (Some "basic dGVzdA"))
         = Raise (HTTP (mkHTTPException 401 "Invalid authentication credentials"
                          (Some {[ "WWW-Authenticate" := "Basic" ]})))).
Proof.
  cbv zeta. split.
  - apply (basic_family_auto_error_off (HTTPBasic_init None None None false)
             (mkRequest (Some "Bearer dGVzdDp0ZXN0")) "Bearer" "dGVzdDp0ZXN0");
      [reflexivity | reflexivity |].
    right. discriminate.
  - apply (basic_family_auto_error_off (HTTPBasic_init None None None false)
             (mkRequest (Some "basic dGVzdA")) "basic" "dGVzdA");
      [reflexivity | reflexivity | reflexivity | reflexivity |].
    apply (bad_base64 _ binascii_Error). reflexivity.
Defined.

(** ** base64: decoding what [b64encode] produced *)

Lemma uchar_to_N (b : byte) : uchar (Byte.to_N b) = b.
Proof. destruct b; reflexivity. Qed.

Lemma all_bytes_complete (b : byte) : In b all_bytes.
Proof.
  unfold all_bytes. apply in_map_iff. exists (N.to_nat (Byte.to_N b)). split.
  - rewrite N2Nat.id. apply uchar_to_N.
  - apply in_seq. pose proof (Byte.to_N_bounded b). lia.
Qed.

Lemma forall_byte_spec (P : byte -> bool) :
  forall_byte P = true -> forall b, P b = true.
Proof.
  unfold forall_byte. rewrite forallb_forall.
  intros H b. apply H, all_bytes_complete.
Qed.

Lemma forall_byte2_spec (P : byte -> byte -> bool) :
  forall_byte2 P = true -> forall a b, P a b = true.
Proof.
  unfold forall_byte2. intros H a b.
  apply (forall_byte_spec (P a)).
  apply (forall_byte_spec (fun a => forall_byte (P a)) H).
Qed.

Ltac check_bytes :=
  first [apply forall_byte2_spec | apply forall_byte_spec];
  vm_compute; reflexivity.

(** The alphabet: [table_a2b_base64] inverts [table_b2a_base64], and no
    character of the alphabet is the pad character. *)
Lemma alphabet (n : N) :
  n < 64 ->
  Byte.eqb (b2a n) BASE64_PAD = false /\ table_a2b_base64 (b2a n) = n.
Proof.
  intros Hn.
  assert (Hall : forallb (fun k => negb (Byte.eqb (b2a (N.of_nat k)) BASE64_PAD)
                                   && (table_a2b_base64 (b2a (N.of_nat k)) =? N.of_nat k))
                   (seq 0 64) = true) by (vm_compute; reflexivity).
  rewrite forallb_forall in Hall.
  specialize (Hall (N.to_nat n)). rewrite N2Nat.id in Hall.
  destruct (andb_prop _ _ (Hall ltac:(apply in_seq; lia))) as [Hpad Htab].
  split.
  - now apply negb_true_iff.
  - now apply N.eqb_eq.
Qed.

(** One turn of the loop on a character of the alphabet. *)
Lemma a2b_base64_loop_alphabet (n : N) (rest : list byte)
    (quad_pos leftchar pads : N) (bin_data : list byte) :
  n < 64 ->
  a2b_base64_loop (b2a n :: rest) quad_pos leftchar pads bin_data
  = if quad_pos =? 0 then
      a2b_base64_loop rest 1 n 0 bin_data
    else if quad_pos =? 1 then
      a2b_base64_loop rest 2 (N.land n 15) 0
        (bin_data ++ [uchar (N.lor (N.shiftl leftchar 2) (N.shiftr n 4))])
    else if quad_pos =? 2 then
      a2b_base64_loop rest 3 (N.land n 3) 0
        (bin_data ++ [uchar (N.lor (N.shiftl leftchar 4) (N.shiftr n 2))])
    else
      a2b_base64_loop rest 0 0 0
        (bin_data ++ [uchar (N.lor (N.shiftl leftchar 6) n)]).
Proof.
  intros Hn. destruct (alphabet n Hn) as [Hpad Htab].
  cbn [a2b_base64_loop]. rewrite Hpad, Htab.
  now replace (64 <=? n) with false by (symmetry; apply N.leb_gt; exact Hn).
Qed.

Section Sextets.
Variables a b c : byte.

Local Notation "'na'" := (Byte.to_N a).
Local Notation "'nb'" := (Byte.to_N b).
Local Notation "'nc'" := (Byte.to_N c).

Lemma sextet1_bound : N.shiftr na 2 < 64.
Proof. apply N.ltb_lt. revert a. check_bytes. Qed.

Lemma sextet2_bound : N.lor (N.shiftl (N.land na 3) 4) (N.shiftr nb 4) < 64.
Proof. apply N.ltb_lt. revert a b. check_bytes. Qed.

Lemma sextet2_last_bound : N.shiftl (N.land na 3) 4 < 64.
Proof. apply N.ltb_lt. revert a. check_bytes. Qed.

Lemma sextet3_bound : N.lor (N.shiftl (N.land nb 15) 2) (N.shiftr nc 6) < 64.
Proof. apply N.ltb_lt. revert b c. check_bytes. Qed.

Lemma sextet3_last_bound : N.shiftl (N.land nb 15) 2 < 64.
Proof. apply N.ltb_lt. revert b. check_bytes. Qed.

Lemma sextet4_bound : N.land nc 63 < 64.
Proof. apply N.ltb_lt. revert c. check_bytes. Qed.

(** The first byte comes back from the first two sextets. *)
Lemma first_byte :
  uchar (N.lor (N.shiftl (N.shiftr na 2) 2)
           (N.shiftr (N.lor (N.shiftl (N.land na 3) 4) (N.shiftr nb 4)) 4)) = a.
Proof. apply Byte.byte_dec_bl. revert a b. check_bytes. Qed.

Lemma first_byte_last :
  uchar (N.lor (N.shiftl (N.shiftr na 2) 2)
           (N.shiftr (N.shiftl (N.land na 3) 4) 4)) = a.
Proof. apply Byte.byte_dec_bl. revert a. check_bytes. Qed.

(** What the second sextet leaves in [leftchar]. *)
Lemma sextet2_left :
  N.land (N.lor (N.shiftl (N.land na 3) 4) (N.shiftr nb 4)) 15 = N.shiftr nb 4.
Proof. apply N.eqb_eq. revert a b. check_bytes. Qed.

Lemma second_byte :
  uchar (N.lor (N.shiftl (N.shiftr nb 4) 4)
           (N.shiftr (N.lor (N.shiftl (N.land nb 15) 2) (N.shiftr nc 6)) 2)) = b.
Proof. apply Byte.byte_dec_bl. revert b c. check_bytes. Qed.

Lemma second_byte_last :
  uchar (N.lor (N.shiftl (N.shiftr nb 4) 4)
           (N.shiftr (N.shiftl (N.land nb 15) 2) 2)) = b.
Proof. apply Byte.byte_dec_bl. revert b. check_bytes. Qed.

Lemma third_byte :
  uchar (N.lor (N.shiftl
                  (N.land (N.lor (N.shiftl (N.land nb 15) 2) (N.shiftr nc 6)) 3) 6)
           (N.land nc 63)) = c.
Proof. apply Byte.byte_dec_bl. revert b c. check_bytes. Qed.
End Sextets.

Lemma list_ind3 {A : Type} (P : list A -> Prop) :
  P [] ->
  (forall a, P [a]) ->
  (forall a b, P [a; b]) ->
  (forall a b c l, P l -> P (a :: b :: c :: l)) ->
  forall l, P l.
Proof.
  intros H0 H1 H2 H3 l.
  enough (H : P l /\ (forall a, P (a :: l)) /\ (forall a b, P (a :: b :: l)))
    by apply H.
  induction l as [|x l (IH0 & IH1 & IH2)].
  - auto.
  - repeat split; auto.
Qed.

(** Two pad characters after two characters of a quad, or one after three,
    end the input. *)
Lemma a2b_base64_loop_pad2 (rest : list byte) (leftchar : N) (bin_data : list byte) :
  a2b_base64_loop (BASE64_PAD :: BASE64_PAD :: rest) 2 leftchar 0 bin_data
  = Return bin_data.
Proof. reflexivity. Qed.

Lemma a2b_base64_loop_pad1 (rest : list byte) (leftchar : N) (bin_data : list byte) :
  a2b_base64_loop (BASE64_PAD :: rest) 3 leftchar 0 bin_data = Return bin_data.
Proof. reflexivity. Qed.

Ltac alphabet_step bound :=
  rewrite (a2b_base64_loop_alphabet _ _ _ _ _ _ bound); cbn [N.eqb Pos.eqb].

(** A full group of four characters gives back its three bytes and leaves
    the loop where it started. *)
Lemma a2b_base64_loop_group (a b c : byte) (tail bin_data : list byte) :
  a2b_base64_loop (b64encode (a :: b :: c :: [])  ++ tail) 0 0 0 bin_data
  = a2b_base64_loop tail 0 0 0 (bin_data ++ [a; b; c]).
Proof.
  cbn [b64encode app].
  alphabet_step (sextet1_bound a).
  alphabet_step (sextet2_bound a b).
  alphabet_step (sextet3_bound b c).
  alphabet_step (sextet4_bound c).
  rewrite first_byte, sextet2_left, second_byte, third_byte.
  now rewrite <- !app_assoc.
Qed.

Lemma b64encode_group (a b c : byte) (rest : list byte) :
  b64encode (a :: b :: c :: rest) = b64encode [a; b; c] ++ b64encode rest.
Proof. reflexivity. Qed.

(** [a2b_base64] inverts [b64encode]. *)
Lemma a2b_base64_loop_b64encode (s : list byte) :
  forall bin_data,
    a2b_base64_loop (b64encode s) 0 0 0 bin_data = Return (bin_data ++ s).
Proof.
  induction s as [|a|a b|a b c rest IH] using list_ind3; intros bin_data.
  - cbn. now rewrite app_nil_r.
  - cbn [b64encode].
    alphabet_step (sextet1_bound a).
    alphabet_step (sextet2_last_bound a).
    now rewrite a2b_base64_loop_pad2, first_byte_last.
  - cbn [b64encode].
    alphabet_step (sextet1_bound a).
    alphabet_step (sextet2_bound a b).
    alphabet_step (sextet3_last_bound b).
    rewrite a2b_base64_loop_pad1, first_byte, sextet2_left, second_byte_last.
    now rewrite <- app_assoc.
  - rewrite b64encode_group, a2b_base64_loop_group, IH.
    now rewrite <- app_assoc.
Qed.

Lemma a2b_base64_b64encode (s : list byte) :
  a2b_base64 (b64encode s) = Return s.
Proof. apply (a2b_base64_loop_b64encode s []). Qed.

(** ** ASCII text through [encode], [b64encode], [b64decode], [decode] *)

Lemma is_ascii_byte_b2a (n : N) : is_ascii_byte (b2a n) = true.
Proof.
  unfold b2a.
  destruct (nth_in_or_default (N.to_nat n)
              (list_byte_of_string table_b2a_base64) x00) as [Hin | ->];
    [|reflexivity].
  assert (Hall : forallb is_ascii_byte (list_byte_of_string table_b2a_base64) = true)
    by (vm_compute; reflexivity).
  rewrite forallb_forall in Hall. now apply Hall.
Qed.

Lemma b64encode_ascii (s : list byte) : forallb is_ascii_byte (b64encode s) = true.
Proof.
  induction s as [|a|a b|a b c rest IH] using list_ind3;
    cbn [b64encode forallb]; rewrite ?is_ascii_byte_b2a, ?IH; reflexivity.
Qed.

Lemma is_ascii_char_of_byte (b : byte) :
  is_ascii_char (ascii_of_byte b) = is_ascii_byte b.
Proof. destruct b; reflexivity. Qed.

Lemma isascii_string_of_list_byte (l : list byte) :
  isascii (string_of_list_byte l) = forallb is_ascii_byte l.
Proof.
  induction l as [|b l IH]; [reflexivity|].
  cbn [string_of_list_byte map string_of_list_ascii isascii forallb].
  now rewrite is_ascii_char_of_byte, <- IH.
Qed.

(** [b64decode] inverts [b64encode] on every byte string. *)
Lemma b64decode_b64encode (s : list byte) :
  b64decode (string_of_list_byte (b64encode s)) = Return s.
Proof.
  unfold b64decode.
  rewrite isascii_string_of_list_byte, b64encode_ascii.
  rewrite list_byte_of_string_of_list_byte. apply a2b_base64_b64encode.
Qed.

Lemma encode_char_ascii (c : ascii) :
  is_ascii_char c = true -> encode_char c = [byte_of_ascii c].
Proof. destruct c as [[] [] [] [] [] [] [] []]; (reflexivity || discriminate). Qed.

Lemma is_ascii_byte_of_ascii (c : ascii) :
  is_ascii_byte (byte_of_ascii c) = is_ascii_char c.
Proof. destruct c as [[] [] [] [] [] [] [] []]; reflexivity. Qed.

Lemma encode_ascii (s : string) :
  isascii s = true ->
  encode s = list_byte_of_string s /\ forallb is_ascii_byte (encode s) = true.
Proof.
  induction s as [|c s IH]; cbn [isascii encode]; [now split|].
  intros [Hc Hs]%andb_prop. destruct (IH Hs) as [IHe IHa].
  rewrite (encode_char_ascii _ Hc). cbn [app forallb].
  rewrite IHe in *. split; [reflexivity|].
  now rewrite is_ascii_byte_of_ascii, Hc.
Qed.

(** ASCII text comes back from [decode("ascii")] of its encoding. *)
Lemma decode_ascii_encode (s : string) :
  isascii s = true -> decode_ascii (encode s) = Return s.
Proof.
  intros Hs. destruct (encode_ascii s Hs) as [He Ha].
  unfold decode_ascii. rewrite Ha, He.
  now rewrite string_of_list_byte_of_string.
Qed.

Lemma isascii_app (u v : string) :
  isascii (u +:+ v) = isascii u && isascii v.
Proof.
  induction u as [|c u IH]; [reflexivity|].
  simpl. now rewrite IH, andb_assoc.
Qed.

Lemma partition_present (sep : ascii) (u p : string) :
  ~ In sep (list_ascii_of_string u) ->
  partition sep (u +:+ String sep p) = (u, String sep "", p).
Proof.
  induction u as [|c u IH]; simpl.
  - intros _. now rewrite Ascii.eqb_refl.
  - intros Hnot. destruct (Ascii.eqb_spec c sep) as [-> | _].
    + exfalso. apply Hnot. now left.
    + rewrite IH; [reflexivity|]. intros Hin. apply Hnot. now right.
Qed.

(** The decoding part of [get_http_basic_authorization_credentials] on the
    param that a client builds from ASCII [user] and [pass]. *)
Lemma try_block_basic_param (user pass : string) :
  isascii user = true -> isascii pass = true ->
  (call! raw := b64decode (basic_param user pass) in decode_ascii raw)
  = Return (user +:+ ":" +:+ pass).
Proof.
  intros Hu Hp. unfold basic_param.
  rewrite b64decode_b64encode. cbn [bind].
  apply decode_ascii_encode.
  now rewrite !isascii_app, Hu, Hp.
Qed.

Lemma get_http_basic_authorization_credentials_basic_param
    (self : HTTPBase) (v scheme user pass : string) :
  get_authorization_scheme_param (Some v) = (scheme, basic_param user pass) ->
  lower scheme = "basic" ->
  isascii user = true -> isascii pass = true ->
  ~ In ":"%char (list_ascii_of_string user) ->
  get_http_basic_authorization_credentials self (mkRequest (Some v))
  = Return (Some (user, pass)).
Proof.
  intros Hsplit Hlow Hu Hp Hcolon.
  unfold get_http_basic_authorization_credentials.
  cbn [headers_get_Authorization]. rewrite Hsplit.
  rewrite (basic_guard_passes _ _ _ Hsplit Hlow).
  rewrite (try_block_basic_param _ _ Hu Hp).
  change (user +:+ ":" +:+ pass) with (user +:+ String ":" pass).
  now rewrite (partition_present _ _ _ Hcolon).
Qed.

(** C5, as the code has it.  For ASCII [user] and [pass], with no colon in
    [user], either of them possibly empty: on a Basic header whose param is
    the base64 of [user:pass], both extractors of the Basic family succeed
    and return exactly [user] and [pass]. *)
Theorem basic_family_roundtrip
    (self : HTTPBase) (v scheme user pass : string) :
  get_authorization_scheme_param (Some v) = (scheme, basic_param user pass) ->
  lower scheme = "basic" ->
  isascii user = true -> isascii pass = true ->
  ~ In ":"%char (list_ascii_of_string user) ->
  HTTPBasic_call self (mkRequest (Some v))
  = Return (Some (mkHTTPBasicCredentials user pass))
  /\ HTTPBasicClientCredentials_call self (mkRequest (Some v))
     = Return (Some (mkHTTPClientCredentials user pass)).
Proof.
  intros Hsplit Hlow Hu Hp Hcolon.
  unfold HTTPBasic_call, HTTPBasicClientCredentials_call.
  rewrite (get_http_basic_authorization_credentials_basic_param
             _ _ _ _ _ Hsplit Hlow Hu Hp Hcolon).
  now split.
Qed.

Lemma basic_family_roundtrip_witness :
  (HTTPBasic_call (HTTPBasic_init None None None true)
     (mkRequest (Some "Basic dGVzdDp0ZXN0"))
   = Return (Some (mkHTTPBasicCredentials "test" "test")))
  /\ HTTPBasicClientCredentials_call (HTTPBasic_init None None None true)
       (mkRequest (Some "Basic Og=="))
     = Return (Some (mkHTTPClientCredentials "" "")).
Proof.
  split.
  - apply (basic_family_roundtrip (HTTPBasic_init None None None true)
             "Basic dGVzdDp0ZXN0" "Basic" "test" "test");
      [reflexivity | reflexivity | reflexivity | reflexivity |].
    vm_compute. intuition discriminate.
  - apply (basic_family_roundtrip (HTTPBasic_init None None None true)
             "Basic Og==" "Basic" "" "");
      [reflexivity | reflexivity | reflexivity | reflexivity |].
    vm_compute. intuition.
Defined.

(** C5 as stated fails on a [user] with a colon, which comes back cut at
    its first colon, and on a character that is not ASCII (here U+00E9),
    which [decode("ascii")] refuses. *)
Lemma basic_family_roundtrip_fails :
  let self := HTTPBasic_init None None None true in
  HTTPBasic_call self (mkRequest (Some ("Basic " +:+ basic_param "a:b" "c")))
  = Return (Some (mkHTTPBasicCredentials "a" "b:c"))
  /\ mkHTTPBasicCredentials "a" "b:c" <> mkHTTPBasicCredentials "a:b" "c"
  /\ HTTPBasic_call self
       (mkRequest (Some ("Basic " +:+ basic_param (String "233"%char "") "c")))
     = Raise (HTTP (mkHTTPException 401 "Invalid authentication credentials"
                      (Some {[ "WWW-Authenticate" := "Basic" ]}))).
Proof. cbv zeta. split; [reflexivity | split; [discriminate | reflexivity]]. Qed.

(** ** The same on the header a client sends *)

Lemma split_basic_header (c : ascii) (p : string) :
  Ascii.is_space c = false ->
  get_authorization_scheme_param (Some ("Basic " +:+ String c p))
  = ("Basic", String c p).
Proof. intros Hc. simpl. now rewrite Hc. Qed.

Lemma b2a_not_space (n : N) :
  n < 64 -> Ascii.is_space (ascii_of_byte (b2a n)) = false.
Proof.
  intros Hn.
  assert (Hall : forallb (fun k => negb (Ascii.is_space
                                           (ascii_of_byte (b2a (N.of_nat k)))))
                   (seq 0 64) = true) by (vm_compute; reflexivity).
  rewrite forallb_forall in Hall.
  specialize (Hall (N.to_nat n)). rewrite N2Nat.id in Hall.
  apply negb_true_iff, Hall, in_seq. lia.
Qed.

Lemma b64encode_head (x : byte) (l : list byte) :
  exists tail, b64encode (x :: l) = b2a (N.shiftr (Byte.to_N x) 2) :: tail.
Proof. destruct l as [|y [|z l]]; eexists; reflexivity. Qed.

Lemma encode_colon_head (user pass : string) :
  exists x l, encode (user +:+ ":" +:+ pass) = x :: l.
Proof.
  destruct user as [|c user]; simpl.
  - eauto.
  - unfold encode_char. destruct (N_of_ascii c <? 128); simpl; eauto.
Qed.

(** The param of a client starts with a character of the alphabet. *)
Lemma basic_param_head (user pass : string) :
  exists c p, basic_param user pass = String c p /\ Ascii.is_space c = false.
Proof.
  unfold basic_param.
  destruct (encode_colon_head user pass) as (x & l & ->).
  destruct (b64encode_head x l) as (tail & ->).
  cbn [string_of_list_byte map string_of_list_ascii].
  eexists _, _. split; [reflexivity|].
  apply b2a_not_space, sextet1_bound.
Qed.

(** The header [Basic] followed by the base64 of [user:pass], for ASCII
    [user] without a colon and ASCII [pass], is accepted by both extractors
    of the Basic family, which return [user] and [pass]. *)
Corollary basic_header_roundtrip (self : HTTPBase) (user pass : string) :
  isascii user = true -> isascii pass = true ->
  ~ In ":"%char (list_ascii_of_string user) ->
  let request := mkRequest (Some ("Basic " +:+ basic_param user pass)) in
  HTTPBasic_call self request
  = Return (Some (mkHTTPBasicCredentials user pass))
  /\ HTTPBasicClientCredentials_call self request
     = Return (Some (mkHTTPClientCredentials user pass)).
Proof.
  intros Hu Hp Hcolon request. subst request.
  assert (Hsplit : get_authorization_scheme_param
                     (Some ("Basic " +:+ basic_param user pass))
                   = ("Basic", basic_param user pass)).
  { destruct (basic_param_head user pass) as (c & p & Heq & Hc).
    rewrite Heq. now apply split_basic_header. }
  unfold HTTPBasic_call, HTTPBasicClientCredentials_call.
  rewrite (get_http_basic_authorization_credentials_basic_param
             self _ _ _ _ Hsplit eq_refl Hu Hp Hcolon).
  now split.
Qed.

(** * Further properties of the extractors *)

(** ** The guard on header, scheme and credentials *)

Lemma truthy_true (s : string) : truthy s = true -> s <> "".
Proof. destruct s; [discriminate | congruence]. Qed.

Lemma lower_nonempty (s t : string) : lower s = t -> t <> "" -> s <> "".
Proof. intros <- Ht ->. now apply Ht. Qed.

(** The split of an absent or empty header has no scheme. *)
Lemma split_falsy (authorization : option string) (scheme param : string) :
  truthy_opt authorization = false ->
  get_authorization_scheme_param authorization = (scheme, param) ->
  scheme = "" /\ param = "".
Proof.
  destruct authorization as [[|c v]|]; cbn; try discriminate;
    intros _ [= <- <-]; now split.
Qed.

Lemma guard_passes_iff (authorization : option string) (scheme param : string) :
  get_authorization_scheme_param authorization = (scheme, param) ->
  negb (truthy_opt authorization && truthy scheme && truthy param) = false
  <-> scheme <> "" /\ param <> "".
Proof.
  intros Hsplit. rewrite negb_false_iff, !andb_true_iff. split.
  - intros [[_ Hs] Hp]. split; now apply truthy_true.
  - intros [Hs Hp]. rewrite !truthy_nonempty by assumption.
    repeat split. destruct (truthy_opt authorization) eqn:Ha; [reflexivity|].
    now destruct (split_falsy _ _ _ Ha Hsplit).
Qed.

(** ** What the base, Bearer and Digest extractors return *)

(** The base extractor returns a credential exactly when the split of the
    header has a scheme and a param, both not empty; the credential is the
    split. *)
Theorem HTTPBase_call_returns_iff
    (self : HTTPBase) (request : Request) (c : HTTPAuthorizationCredentials) :
  HTTPBase_call self request = Return (Some c)
  <-> get_authorization_scheme_param (headers_get_Authorization request)
      = (scheme c, credentials c)
      /\ scheme c <> "" /\ credentials c <> "".
Proof.
  unfold HTTPBase_call.
  destruct (get_authorization_scheme_param _) as [s p] eqn:Hsplit.
  pose proof (guard_passes_iff _ _ _ Hsplit) as Hguard.
  destruct (negb _) eqn:G.
  - split.
    + destruct (auto_error self); discriminate.
    + intros ([= -> ->] & Hs & Hp).
      assert (true = false) by (apply Hguard; now split). discriminate.
  - destruct Hguard as [[Hs Hp] _]; [reflexivity|]. split.
    + intros [= <-]. cbn. now repeat split.
    + intros ([= -> ->] & _). now destruct c.
Qed.

(** The Bearer extractor returns a credential exactly when the split of the
    header has a scheme that is [bearer] in some case and a param that is
    not empty; the credential is the split, the scheme as it was sent. *)
Theorem HTTPBearer_call_returns_iff
    (self : HTTPBase) (request : Request) (c : HTTPAuthorizationCredentials) :
  HTTPBearer_call self request = Return (Some c)
  <-> get_authorization_scheme_param (headers_get_Authorization request)
      = (scheme c, credentials c)
      /\ credentials c <> "" /\ lower (scheme c) = "bearer".
Proof.
  unfold HTTPBearer_call.
  destruct (get_authorization_scheme_param _) as [s p] eqn:Hsplit.
  pose proof (guard_passes_iff _ _ _ Hsplit) as Hguard.
  destruct (negb _) eqn:G.
  - split.
    + destruct (auto_error self); discriminate.
    + intros ([= -> ->] & Hp & Hl).
      assert (true = false); [|discriminate].
      apply Hguard. split; [|exact Hp].
      apply (lower_nonempty _ _ Hl). discriminate.
  - destruct (String.eqb_spec (lower s) "bearer") as [Hl | Hl]; cbn [negb].
    + destruct Hguard as [[Hs Hp] _]; [reflexivity|]. split.
      * intros [= <-]. cbn. now repeat split.
      * intros ([= -> ->] & _). now destruct c.
    + split.
      * destruct (auto_error self); discriminate.
      * intros ([= -> ->] & _ & Hl'). contradiction.
Qed.

(** The Digest extractor returns a credential exactly when the split of the
    header has a scheme that is [digest] in some case and a param that is
    not empty; the credential is the split, the scheme as it was sent. *)
Theorem HTTPDigest_call_returns_iff
    (self : HTTPBase) (request : Request) (c : HTTPAuthorizationCredentials) :
  HTTPDigest_call self request = Return (Some c)
  <-> get_authorization_scheme_param (headers_get_Authorization request)
      = (scheme c, credentials c)
      /\ credentials c <> "" /\ lower (scheme c) = "digest".
Proof.
  unfold HTTPDigest_call.
  destruct (get_authorization_scheme_param _) as [s p] eqn:Hsplit.
  pose proof (guard_passes_iff _ _ _ Hsplit) as Hguard.
  destruct (negb _) eqn:G.
  - split.
    + destruct (auto_error self); discriminate.
    + intros ([= -> ->] & Hp & Hl).
      assert (true = false); [|discriminate].
      apply Hguard. split; [|exact Hp].
      apply (lower_nonempty _ _ Hl). discriminate.
  - destruct (String.eqb_spec (lower s) "digest") as [Hl | Hl]; cbn [negb].
    + destruct Hguard as [[Hs Hp] _]; [reflexivity|]. split.
      * intros [= <-]. cbn. now repeat split.
      * intros ([= -> ->] & _). now destruct c.
    + split.
      * discriminate.
      * intros ([= -> ->] & _ & Hl'). contradiction.
Qed.

(** With [auto_error] on, the Bearer extractor raises 403
    [Invalid authentication credentials] on a header whose split has a
    scheme and a param, both not empty, with a scheme that is not
    [bearer]. *)
Theorem HTTPBearer_call_mismatch_auto_error_on
    (self : HTTPBase) (request : Request) (scheme param : string) :
  auto_error self = true ->
  get_authorization_scheme_param (headers_get_Authorization request)
  = (scheme, param) ->
  scheme <> "" -> param <> "" -> lower scheme <> "bearer" ->
  HTTPBearer_call self request
  = Raise (HTTP (mkHTTPException HTTP_403_FORBIDDEN
                   "Invalid authentication credentials" None)).
Proof.
  intros Hauto Hsplit Hs Hp Hl. unfold HTTPBearer_call. rewrite Hsplit.
  destruct (guard_passes_iff _ _ _ Hsplit) as [_ ->]; [|now split].
  apply String.eqb_neq in Hl. now rewrite Hl, Hauto.
Qed.

Lemma HTTPBearer_call_mismatch_auto_error_on_witness :
  HTTPBearer_call (HTTPBearer_init None None None true)
    (mkRequest (Some "Basic notreally"))
  = Raise (HTTP (mkHTTPException HTTP_403_FORBIDDEN
                   "Invalid authentication credentials" None)).
Proof.
  apply (HTTPBearer_call_mismatch_auto_error_on
           (HTTPBearer_init None None None true)
           (mkRequest (Some "Basic notreally")) "Basic" "notreally");
    [reflexivity | reflexivity | discriminate | discriminate | discriminate].
Defined.

(** A header whose split lacks a scheme or a param (an empty header, or a
    scheme with nothing after it) counts as no credentials for the base,
    Bearer and Digest extractors, whatever the scheme is: 403
    [Not authenticated] with [auto_error] on, [None] with it off. *)
Theorem token_extractors_incomplete_header
    (self : HTTPBase) (request : Request) (scheme param : string) :
  get_authorization_scheme_param (headers_get_Authorization request)
  = (scheme, param) ->
  scheme = "" \/ param = "" ->
  let outcome :=
    if auto_error self
    then Raise (HTTP (mkHTTPException HTTP_403_FORBIDDEN "Not authenticated" None))
    else Return None in
  HTTPBase_call self request = outcome
  /\ HTTPBearer_call self request = outcome
  /\ HTTPDigest_call self request = outcome.
Proof.
  intros Hsplit Hempty outcome.
  assert (G : negb (truthy_opt (headers_get_Authorization request)
                    && truthy scheme && truthy param) = true).
  { destruct Hempty as [-> | ->]; cbn; now rewrite ?andb_false_r. }
  unfold HTTPBase_call, HTTPBearer_call, HTTPDigest_call.
  rewrite Hsplit, G. repeat split.
Qed.

Lemma token_extractors_incomplete_header_witness :
  HTTPBearer_call (HTTPBearer_init None None None true) (mkRequest (Some "Bearer"))
  = Raise (HTTP (mkHTTPException HTTP_403_FORBIDDEN "Not authenticated" None)).
Proof.
  apply (token_extractors_incomplete_header
           (HTTPBearer_init None None None true) (mkRequest (Some "Bearer"))
           "Bearer" "");
    [reflexivity | right; reflexivity].
Defined.

(** Whatever the base, Bearer or Digest extractor raises is an
    [HTTPException] with status 403 and no headers, whose detail is
    [Not authenticated] or [Invalid authentication credentials]; the base
    extractor raises the first only. *)
Theorem token_extractors_raise
    (self : HTTPBase) (request : Request) (e : exn) :
  HTTPBase_call self request = Raise e
  \/ HTTPBearer_call self request = Raise e
  \/ HTTPDigest_call self request = Raise e ->
  exists h : HTTPException,
    e = HTTP h
    /\ status_code h = HTTP_403_FORBIDDEN
    /\ headers h = None
    /\ (detail h = "Not authenticated"
        \/ detail h = "Invalid authentication credentials"
           /\ HTTPBase_call self request <> Raise e).
Proof.
  unfold HTTPBase_call, HTTPBearer_call, HTTPDigest_call.
  destruct (get_authorization_scheme_param _) as [s p].
  destruct (negb (_ && _ && _)).
  - destruct (auto_error self).
    + intros [H | [H | H]]; injection H as <-; eexists;
        (split; [reflexivity|]); cbn; auto.
    + intros [H | [H | H]]; discriminate.
  - intros [H | [H | H]]; [discriminate | |].
    + destruct (negb (String.eqb (lower s) "bearer")); [|discriminate].
      destruct (auto_error self); [|discriminate].
      injection H as <-. eexists. split; [reflexivity|]. cbn.
      repeat split. right. split; [reflexivity | discriminate].
    + destruct (negb (String.eqb (lower s) "digest")); [|discriminate].
      injection H as <-. eexists. split; [reflexivity|]. cbn.
      repeat split. right. split; [reflexivity | discriminate].
Qed.

Lemma token_extractors_raise_witness :
  exists h : HTTPException,
    HTTP (mkHTTPException 403 "Invalid authentication credentials" None) = HTTP h
    /\ status_code h = HTTP_403_FORBIDDEN
    /\ headers h = None
    /\ (detail h = "Not authenticated"
        \/ detail h = "Invalid authentication credentials"
           /\ HTTPBase_call (HTTPDigest_init None None false)
                (mkRequest (Some "Other abc"))
              <> Raise (HTTP (mkHTTPException 403
                                "Invalid authentication credentials" None))).
Proof.
  apply (token_extractors_raise (HTTPDigest_init None None false)
           (mkRequest (Some "Other abc"))).
  right. right. reflexivity.
Defined.

(** ** [auto_error] *)

Lemma get_http_basic_authorization_credentials_none_iff
    (self : HTTPBase) (request : Request) :
  get_http_basic_authorization_credentials self request = Return None
  <-> auto_error self = false
      /\ (truthy_opt (headers_get_Authorization request) = false
          \/ lower (fst (get_authorization_scheme_param
                           (headers_get_Authorization request))) <> "basic").
Proof.
  unfold get_http_basic_authorization_credentials.
  destruct (get_authorization_scheme_param _) as [s p]. cbn [fst].
  destruct (truthy_opt _); cbn [negb orb];
    [destruct (String.eqb_spec (lower s) "basic") as [Hl | Hl]; cbn [negb]|].
  - split.
    + destruct (call! raw := b64decode p in decode_ascii raw) as [data|e].
      * destruct (partition ":" data) as [[first separator] second].
        destruct (negb (truthy separator)); discriminate.
      * destruct (caught e); discriminate.
    + intros [_ [H | H]]; [discriminate | contradiction].
  - destruct (auto_error self); split; try discriminate; intuition discriminate.
  - destruct (auto_error self); split; try discriminate; intuition discriminate.
Qed.

(** With [auto_error] on, no extractor returns [None]: a call gives a
    credential or raises. *)
Theorem auto_error_on_never_none (self : HTTPBase) (request : Request) :
  auto_error self = true ->
  HTTPBase_call self request <> Return None
  /\ HTTPBasic_call self request <> Return None
  /\ HTTPBasicClientCredentials_call self request <> Return None
  /\ HTTPBearer_call self request <> Return None
  /\ HTTPDigest_call self request <> Return None.
Proof.
  intros Hauto.
  assert (Hget : get_http_basic_authorization_credentials self request
                 <> Return None).
  { rewrite get_http_basic_authorization_credentials_none_iff.
    intros [H _]. congruence. }
  unfold HTTPBase_call, HTTPBasic_call, HTTPBasicClientCredentials_call,
    HTTPBearer_call, HTTPDigest_call.
  destruct (get_http_basic_authorization_credentials self request)
    as [[[u pw]|]|e]; [| contradiction |];
    destruct (get_authorization_scheme_param _) as [s p];
    rewrite Hauto; cbn [bind];
    repeat split;
    repeat match goal with
           | |- context [if ?b then _ else _] => destruct b
           end; discriminate.
Qed.

Lemma auto_error_on_never_none_witness :
  HTTPBase_call (HTTPBasic_init None None None true) (mkRequest (Some "x"))
  <> Return None
  /\ HTTPBasic_call (HTTPBasic_init None None None true) (mkRequest (Some "x"))
     <> Return None
  /\ HTTPBasicClientCredentials_call (HTTPBasic_init None None None true)
       (mkRequest (Some "x")) <> Return None
  /\ HTTPBearer_call (HTTPBasic_init None None None true) (mkRequest (Some "x"))
     <> Return None
  /\ HTTPDigest_call (HTTPBasic_init None None None true) (mkRequest (Some "x"))
     <> Return None.
Proof.
  apply (auto_error_on_never_none (HTTPBasic_init None None None true)
           (mkRequest (Some "x"))).
  reflexivity.
Defined.

(** With [auto_error] off, the base and the Bearer extractors raise
    nothing, on any request; the Digest extractor raises nothing but 403
    [Invalid authentication credentials]. *)
Theorem auto_error_off_raises (self : HTTPBase) (request : Request) (e : exn) :
  auto_error self = false ->
  HTTPBase_call self request <> Raise e
  /\ HTTPBearer_call self request <> Raise e
  /\ (HTTPDigest_call self request = Raise e ->
      e = HTTP (mkHTTPException HTTP_403_FORBIDDEN
                  "Invalid authentication credentials" None)).
Proof.
  intros Hauto.
  unfold HTTPBase_call, HTTPBearer_call, HTTPDigest_call.
  destruct (get_authorization_scheme_param _) as [s p]. rewrite Hauto.
  repeat split;
    repeat match goal with
           | |- context [if ?b then _ else _] => destruct b
           end; try discriminate.
  now intros [= <-].
Qed.

Lemma auto_error_off_raises_witness :
  let self := HTTPDigest_init None None false in
  let request := mkRequest (Some "Other abc") in
  let e := HTTP (mkHTTPException 403 "Invalid authentication credentials" None) in
  HTTPBase_call self request <> Raise e
  /\ HTTPBearer_call self request <> Raise e
  /\ (HTTPDigest_call self request = Raise e -> e = e).
Proof.
  apply (auto_error_off_raises (HTTPDigest_init None None false)
           (mkRequest (Some "Other abc"))).
  reflexivity.
Defined.

(** ** The Basic family, the other way round *)

Lemma partition_inv (sep : ascii) (s : string) :
  forall before found after,
    partition sep s = (before, found, after) ->
    (found = "" /\ before = s /\ after = ""
     /\ ~ In sep (list_ascii_of_string s))
    \/ (found = String sep ""
        /\ s = before +:+ String sep after
        /\ ~ In sep (list_ascii_of_string before)).
Proof.
  induction s as [|c s IH]; intros before found after; cbn [partition].
  - intros [= <- <- <-]. left. cbn. intuition.
  - destruct (Ascii.eqb_spec c sep) as [-> | Hne].
    + intros [= <- <- <-]. right. cbn. intuition.
    + destruct (partition sep s) as [[b f] a].
      destruct (IH b f a eq_refl) as [(-> & -> & -> & Hno) | (-> & -> & Hno)].
      * intros [= <- <- <-]. left. repeat split. cbn. intuition.
      * intros [= <- <- <-]. right. repeat split. cbn. intuition.
Qed.

Lemma basic_guard_iff (authorization : option string) (scheme param : string) :
  get_authorization_scheme_param authorization = (scheme, param) ->
  negb (truthy_opt authorization) || negb (String.eqb (lower scheme) "basic") = false
  <-> lower scheme = "basic".
Proof.
  intros Hsplit. rewrite orb_false_iff, !negb_false_iff, String.eqb_eq. split.
  - now intros [_ H].
  - intros Hl. split; [|exact Hl].
    destruct (truthy_opt authorization) eqn:Ha; [reflexivity|].
    destruct (split_falsy _ _ _ Ha Hsplit) as [-> _]. discriminate.
Qed.

Lemma get_http_basic_authorization_credentials_some_iff
    (self : HTTPBase) (request : Request) (user pass : string) :
  get_http_basic_authorization_credentials self request
  = Return (Some (user, pass))
  <-> exists scheme param raw,
        get_authorization_scheme_param (headers_get_Authorization request)
        = (scheme, param)
        /\ lower scheme = "basic"
        /\ b64decode param = Return raw
        /\ decode_ascii raw = Return (user +:+ ":" +:+ pass)
        /\ ~ In ":"%char (list_ascii_of_string user).
Proof.
  unfold get_http_basic_authorization_credentials.
  destruct (get_authorization_scheme_param _) as [s p] eqn:Hsplit.
  pose proof (basic_guard_iff _ _ _ Hsplit) as Hguard.
  destruct (_ || _).
  - split.
    + destruct (auto_error self); discriminate.
    + intros (s' & p' & raw & [= <- <-] & Hl & _).
      assert (true = false) by now apply Hguard. discriminate.
  - assert (Hl : lower s = "basic") by now apply Hguard.
    split.
    + destruct (b64decode p) as [raw|e] eqn:Hb; cbn [bind];
        [|destruct (caught e); discriminate].
      destruct (decode_ascii raw) as [data|e] eqn:Hd;
        [|destruct (caught e); discriminate].
      destruct (partition ":" data) as [[first separator] second] eqn:Hpart.
      destruct (partition_inv _ _ _ _ _ Hpart)
        as [(-> & _) | (-> & -> & Hno)]; cbn [truthy negb]; [discriminate|].
      intros [= <- <-]. now exists s, p, raw.
    + intros (s' & p' & raw & [= <- <-] & _ & Hb & Hd & Hno).
      rewrite Hb. cbn [bind]. rewrite Hd.
      change (user +:+ ":" +:+ pass) with (user +:+ String ":" pass).
      now rewrite (partition_present _ _ _ Hno).
Qed.

(** The Basic extractor returns a credential exactly when the split of the
    header has a scheme that is [basic] in some case and a param that
    [b64decode] and [decode("ascii")] turn into the username, a colon and
    the password, the username without a colon. *)
Theorem HTTPBasic_call_returns_iff
    (self : HTTPBase) (request : Request) (c : HTTPBasicCredentials) :
  HTTPBasic_call self request = Return (Some c)
  <-> exists scheme param raw,
        get_authorization_scheme_param (headers_get_Authorization request)
        = (scheme, param)
        /\ lower scheme = "basic"
        /\ b64decode param = Return raw
        /\ decode_ascii raw = Return (username c +:+ ":" +:+ password c)
        /\ ~ In ":"%char (list_ascii_of_string (username c)).
Proof.
  rewrite <- (get_http_basic_authorization_credentials_some_iff self).
  unfold HTTPBasic_call.
  destruct (get_http_basic_authorization_credentials self request)
    as [[[u pw]|]|e]; cbn [bind]; destruct c as [u' pw']; cbn;
    split; congruence.
Qed.

Lemma decode_ascii_isascii (raw : list byte) (data : string) :
  decode_ascii raw = Return data -> isascii data = true.
Proof.
  unfold decode_ascii. destruct (forallb is_ascii_byte raw) eqn:Hall;
    [|discriminate].
  intros [= <-]. now rewrite isascii_string_of_list_byte.
Qed.

(** A credential that a Basic-family extractor returns is ASCII text in
    both parts, and its first part has no colon. *)
Theorem basic_family_credentials_ascii
    (self : HTTPBase) (request : Request) (user pass : string) :
  HTTPBasic_call self request
  = Return (Some (mkHTTPBasicCredentials user pass))
  \/ HTTPBasicClientCredentials_call self request
     = Return (Some (mkHTTPClientCredentials user pass)) ->
  isascii user = true /\ isascii pass = true
  /\ ~ In ":"%char (list_ascii_of_string user).
Proof.
  intros Hcall.
  assert (Hget : get_http_basic_authorization_credentials self request
                 = Return (Some (user, pass))).
  { unfold HTTPBasic_call, HTTPBasicClientCredentials_call in Hcall.
    destruct (get_http_basic_authorization_credentials self request)
      as [[[u pw]|]|e]; cbn [bind] in Hcall;
      destruct Hcall as [H | H]; try discriminate; now injection H as -> ->. }
  apply get_http_basic_authorization_credentials_some_iff in Hget
    as (s & p & raw & _ & _ & _ & Hd & Hno).
  apply decode_ascii_isascii in Hd.
  rewrite !isascii_app in Hd.
  apply andb_prop in Hd as [Hu [_ Hp]%andb_prop]. now repeat split.
Qed.

Lemma basic_family_credentials_ascii_witness :
  isascii "test" = true /\ isascii "a:b" = true
  /\ ~ In ":"%char (list_ascii_of_string "test").
Proof.
  apply (basic_family_credentials_ascii (HTTPBasic_init None None None true)
           (mkRequest (Some "Basic dGVzdDphOmI="))).
  left. reflexivity.
Defined.

(** The two extractors of the Basic family differ in the names of the
    fields only: on every request the BasicClientCredentials extractor
    gives what the Basic extractor gives, the username as [client_id] and
    the password as [client_secret]. *)
Theorem HTTPBasicClientCredentials_call_relabels
    (self : HTTPBase) (request : Request) :
  HTTPBasicClientCredentials_call self request
  = match HTTPBasic_call self request with
    | Return (Some c) =>
        Return (Some (mkHTTPClientCredentials (username c) (password c)))
    | Return None => Return None
    | Raise e => Raise e
    end.
Proof.
  unfold HTTPBasicClientCredentials_call, HTTPBasic_call.
  now destruct (get_http_basic_authorization_credentials self request)
    as [[[u pw]|]|e].
Qed.

(** A Basic-family extractor returns [None] exactly when [auto_error] is
    off and the header is absent, empty or of a scheme that is not
    [basic]. *)
Theorem HTTPBasic_call_none_iff (self : HTTPBase) (request : Request) :
  HTTPBasic_call self request = Return None
  <-> auto_error self = false
      /\ (truthy_opt (headers_get_Authorization request) = false
          \/ lower (fst (get_authorization_scheme_param
                           (headers_get_Authorization request))) <> "basic").
Proof.
  rewrite <- get_http_basic_authorization_credentials_none_iff.
  unfold HTTPBasic_call.
  destruct (get_http_basic_authorization_credentials self request)
    as [[[u pw]|]|e]; cbn [bind]; split; (discriminate || reflexivity).
Qed.

(** With [auto_error] on, a Basic-family extractor answers a header that is
    absent, empty or of another scheme with 401 [Not authenticated] and
    its challenge header, whatever follows the scheme. *)
Theorem basic_family_wrong_scheme_auto_error_on
    (self : HTTPBase) (request : Request) (scheme param : string) :
  auto_error self = true ->
  get_authorization_scheme_param (headers_get_Authorization request)
  = (scheme, param) ->
  truthy_opt (headers_get_Authorization request) = false
  \/ lower scheme <> "basic" ->
  let failure :=
    mkHTTPException HTTP_401_UNAUTHORIZED "Not authenticated"
      (Some (unauthorized_headers self)) in
  HTTPBasic_call self request = Raise (HTTP failure)
  /\ HTTPBasicClientCredentials_call self request = Raise (HTTP failure).
Proof.
  intros Hauto Hsplit Hguard failure.
  assert (Hget : get_http_basic_authorization_credentials self request
                 = Raise (HTTP failure)).
  { unfold get_http_basic_authorization_credentials. rewrite Hsplit.
    assert (Hcond : negb (truthy_opt (headers_get_Authorization request))
                    || negb (String.eqb (lower scheme) "basic") = true).
    { destruct Hguard as [-> | Hne]; [reflexivity|].
      apply String.eqb_neq in Hne. rewrite Hne. apply orb_true_r. }
    now rewrite Hcond, Hauto. }
  unfold HTTPBasic_call, HTTPBasicClientCredentials_call. now rewrite Hget.
Qed.

Lemma basic_family_wrong_scheme_auto_error_on_witness :
  let self := HTTPBasic_init None None None true in
  let failure :=
    mkHTTPException 401 "Not authenticated"
      (Some {[ "WWW-Authenticate" := "Basic" ]}) in
  HTTPBasic_call self (mkRequest (Some "Bearer dGVzdDp0ZXN0")) = Raise (HTTP failure)
  /\ HTTPBasicClientCredentials_call self (mkRequest (Some "Bearer dGVzdDp0ZXN0"))
     = Raise (HTTP failure).
Proof.
  apply (basic_family_wrong_scheme_auto_error_on
           (HTTPBasic_init None None None true)
           (mkRequest (Some "Bearer dGVzdDp0ZXN0")) "Bearer" "dGVzdDp0ZXN0");
    [reflexivity | reflexivity | right; discriminate].
Defined.

(** A Basic-family extractor raises 401
    [Invalid authentication credentials] exactly when the split of the
    header has a scheme that is [basic] in some case and a param that is
    rejected: by [b64decode], by [decode("ascii")], or for want of a
    colon. *)
Theorem HTTPBasic_call_invalid_iff (self : HTTPBase) (request : Request) :
  HTTPBasic_call self request
  = Raise (HTTP (mkHTTPException HTTP_401_UNAUTHORIZED
                   "Invalid authentication credentials"
                   (Some (unauthorized_headers self))))
  <-> exists scheme param,
        get_authorization_scheme_param (headers_get_Authorization request)
        = (scheme, param)
        /\ lower scheme = "basic"
        /\ MalformedPayload param.
Proof.
  split.
  - intros Hcall. apply HTTPBasic_call_raise in Hcall. revert Hcall.
    unfold get_http_basic_authorization_credentials.
    destruct (get_authorization_scheme_param _) as [s p] eqn:Hsplit.
    pose proof (basic_guard_iff _ _ _ Hsplit) as Hguard.
    destruct (_ || _).
    + destruct (auto_error self); discriminate.
    + assert (Hl : lower s = "basic") by now apply Hguard.
      intros Hcall. exists s, p. repeat split; [exact Hl|].
      destruct (b64decode p) as [raw|e] eqn:Hb; [|now apply (bad_base64 _ e)].
      cbn [bind] in Hcall.
      destruct (decode_ascii raw) as [data|e] eqn:Hd;
        [|now apply (not_text _ raw e)].
      destruct (partition ":" data) as [[first separator] second] eqn:Hpart.
      destruct (partition_inv _ _ _ _ _ Hpart)
        as [(_ & _ & _ & Hno) | (-> & _)]; [|discriminate].
      now apply (no_separator _ raw data).
  - intros (s & p & Hsplit & Hl & Hbad).
    destruct request as [[v|]]; cbn [headers_get_Authorization] in Hsplit.
    + unfold HTTPBasic_call.
      now rewrite (get_http_basic_authorization_credentials_malformed
                     _ _ _ _ Hsplit Hl Hbad).
    + injection Hsplit as <- <-. discriminate.
Qed.

(** A header with the scheme [basic] and nothing after it is not a missing
    credential for the Basic family: both extractors raise 401
    [Invalid authentication credentials], also with [auto_error] off. *)
Theorem basic_family_empty_param (self : HTTPBase) (v scheme : string) :
  get_authorization_scheme_param (Some v) = (scheme, "") ->
  lower scheme = "basic" ->
  let failure :=
    mkHTTPException HTTP_401_UNAUTHORIZED "Invalid authentication credentials"
      (Some (unauthorized_headers self)) in
  HTTPBasic_call self (mkRequest (Some v)) = Raise (HTTP failure)
  /\ HTTPBasicClientCredentials_call self (mkRequest (Some v))
     = Raise (HTTP failure).
Proof.
  intros Hsplit Hl failure.
  assert (Hbad : MalformedPayload "").
  { apply (no_separator _ [] ""); [reflexivity | reflexivity | intros []]. }
  unfold HTTPBasic_call, HTTPBasicClientCredentials_call.
  now rewrite (get_http_basic_authorization_credentials_malformed
                 _ _ _ _ Hsplit Hl Hbad).
Qed.

Lemma basic_family_empty_param_witness :
  let self := HTTPBasic_init None None None false in
  let failure :=
    mkHTTPException 401 "Invalid authentication credentials"
      (Some {[ "WWW-Authenticate" := "Basic" ]}) in
  HTTPBasic_call self (mkRequest (Some "Basic")) = Raise (HTTP failure)
  /\ HTTPBasicClientCredentials_call self (mkRequest (Some "Basic"))
     = Raise (HTTP failure).
Proof.
  apply (basic_family_empty_param (HTTPBasic_init None None None false)
           "Basic" "Basic");
    reflexivity.
Defined.

(** ** Construction *)

Lemma scheme_name_or_nonempty (scheme_name : option string) (class_name : string) :
  class_name <> "" -> scheme_name_or scheme_name class_name <> "".
Proof.
  intros Hc. unfold scheme_name_or.
  destruct scheme_name as [[|c s]|]; cbn; [exact Hc | discriminate | exact Hc].
Qed.

(** The [scheme_name] of an extractor is never empty: an absent or empty
    argument gives the name of the class, any other is kept. *)
Theorem scheme_name_never_empty
    (scheme : string) (bearerFormat given realm description : option string)
    (auto_error : bool) :
  let kept (class_name : string) (self : HTTPBase) :=
    scheme_name self <> ""
    /\ scheme_name self
       = match given with
         | Some (String c s) => String c s
         | _ => class_name
         end in
  kept "HTTPBase" (HTTPBase_init scheme given realm description auto_error)
  /\ kept "HTTPBasic" (HTTPBasic_init given realm description auto_error)
  /\ kept "HTTPBearer" (HTTPBearer_init bearerFormat given description auto_error)
  /\ kept "HTTPBasicClientCredentials"
       (HTTPBasicClientCredentials_init given realm description auto_error)
  /\ kept "HTTPDigest" (HTTPDigest_init given description auto_error).
Proof.
  cbv zeta. cbn [scheme_name HTTPBase_init HTTPBasic_init HTTPBearer_init
                   HTTPBasicClientCredentials_init HTTPDigest_init].
  repeat split;
    try (apply scheme_name_or_nonempty; discriminate);
    now destruct given as [[|c s]|].
Qed.

(** ** [b64decode], as line 83 calls it *)

(** [b64decode] inverts [b64encode] on every byte string, so that two byte
    strings with the same encoding are the same. *)
Theorem b64decode_inverts_b64encode (s : list byte) :
  b64decode (string_of_list_byte (b64encode s)) = Return s
  /\ forall s', b64encode s = b64encode s' -> s = s'.
Proof.
  split; [apply b64decode_b64encode|].
  intros s' Heq.
  pose proof (b64decode_b64encode s) as Hs. rewrite Heq in Hs.
  rewrite b64decode_b64encode in Hs. congruence.
Qed.

Lemma length_mod3_group {A : Type} (a b c : A) (l : list A) :
  (length (a :: b :: c :: l) mod 3 = length l mod 3)%nat.
Proof.
  cbn [length]. change (S (S (S (length l)))) with (3 + length l)%nat.
  rewrite Nat.add_comm. apply (Nat.Div0.mod_add (length l) 1 3).
Qed.

Lemma a2b_base64_loop_b64encode_padded (s : list byte) :
  (length s mod 3 <> 0)%nat ->
  forall junk bin_data,
    a2b_base64_loop (b64encode s ++ junk) 0 0 0 bin_data = Return (bin_data ++ s).
Proof.
  induction s as [|a|a b|a b c rest IH] using list_ind3;
    intros Hlen junk bin_data.
  - now contradiction Hlen.
  - cbn [b64encode app].
    alphabet_step (sextet1_bound a).
    alphabet_step (sextet2_last_bound a).
    now rewrite a2b_base64_loop_pad2, first_byte_last.
  - cbn [b64encode app].
    alphabet_step (sextet1_bound a).
    alphabet_step (sextet2_bound a b).
    alphabet_step (sextet3_last_bound b).
    rewrite a2b_base64_loop_pad1, first_byte, sextet2_left, second_byte_last.
    now rewrite <- app_assoc.
  - rewrite length_mod3_group in Hlen.
    rewrite b64encode_group, <- app_assoc, a2b_base64_loop_group, (IH Hlen).
    now rewrite <- app_assoc.
Qed.

Lemma string_of_list_byte_ascii (l : list byte) :
  forallb is_ascii_byte l = true ->
  b64decode (string_of_list_byte l) = a2b_base64 l.
Proof.
  intros Hl. unfold b64decode.
  now rewrite isascii_string_of_list_byte, Hl, list_byte_of_string_of_list_byte.
Qed.

(** What follows the padding is not read: after the encoding of a byte
    string whose length is no multiple of 3, which ends in pad characters,
    any ASCII bytes may follow, and [b64decode] still returns the byte
    string. *)
Theorem b64decode_ignores_after_padding (s junk : list byte) :
  (length s mod 3 <> 0)%nat ->
  forallb is_ascii_byte junk = true ->
  b64decode (string_of_list_byte (b64encode s ++ junk)) = Return s.
Proof.
  intros Hlen Hjunk.
  rewrite string_of_list_byte_ascii.
  - apply (a2b_base64_loop_b64encode_padded s Hlen junk []).
  - now rewrite forallb_app, b64encode_ascii, Hjunk.
Qed.

Lemma b64decode_ignores_after_padding_witness :
  b64decode (string_of_list_byte (b64encode [x74] ++ [x21; x64; x41]))
  = Return [x74].
Proof.
  apply (b64decode_ignores_after_padding [x74] [x21; x64; x41]).
  - cbn. discriminate.
  - reflexivity.
Defined.

Lemma filter_pad_b2a (n : N) (l : list byte) :
  n < 64 ->
  List.filter (fun c => negb (Byte.eqb c BASE64_PAD)) (b2a n :: l)
  = b2a n :: List.filter (fun c => negb (Byte.eqb c BASE64_PAD)) l.
Proof.
  intros Hn. cbn [List.filter]. now destruct (alphabet n Hn) as [-> _].
Qed.

Lemma forallb_filter_true {A : Type} (P f : A -> bool) (l : list A) :
  forallb P l = true -> forallb P (List.filter f l) = true.
Proof.
  induction l as [|x l IH]; cbn [forallb List.filter]; [reflexivity|].
  intros [Hx Hl]%andb_prop. destruct (f x); cbn [forallb]; auto.
  now rewrite Hx, IH.
Qed.

Lemma a2b_base64_loop_unpadded (s : list byte) :
  (length s mod 3 <> 0)%nat ->
  forall bin_data,
    a2b_base64_loop
      (List.filter (fun c => negb (Byte.eqb c BASE64_PAD)) (b64encode s)) 0 0 0 bin_data
    = Raise binascii_Error.
Proof.
  induction s as [|a|a b|a b c rest IH] using list_ind3; intros Hlen bin_data.
  - now contradiction Hlen.
  - cbn [b64encode].
    rewrite (filter_pad_b2a _ _ (sextet1_bound a)).
    rewrite (filter_pad_b2a _ _ (sextet2_last_bound a)).
    alphabet_step (sextet1_bound a).
    alphabet_step (sextet2_last_bound a).
    reflexivity.
  - cbn [b64encode].
    rewrite (filter_pad_b2a _ _ (sextet1_bound a)).
    rewrite (filter_pad_b2a _ _ (sextet2_bound a b)).
    rewrite (filter_pad_b2a _ _ (sextet3_last_bound b)).
    alphabet_step (sextet1_bound a).
    alphabet_step (sextet2_bound a b).
    alphabet_step (sextet3_last_bound b).
    reflexivity.
  - rewrite length_mod3_group in Hlen. cbn [b64encode].
    rewrite (filter_pad_b2a _ _ (sextet1_bound a)).
    rewrite (filter_pad_b2a _ _ (sextet2_bound a b)).
    rewrite (filter_pad_b2a _ _ (sextet3_bound b c)).
    rewrite (filter_pad_b2a _ _ (sextet4_bound c)).
    alphabet_step (sextet1_bound a).
    alphabet_step (sextet2_bound a b).
    alphabet_step (sextet3_bound b c).
    alphabet_step (sextet4_bound c).
    apply (IH Hlen).
Qed.

(** Padding is required: the encoding of a byte string whose length is no
    multiple of 3, with its pad characters left out, is rejected with
    [binascii.Error]. *)
Theorem b64decode_requires_padding (s : list byte) :
  (length s mod 3 <> 0)%nat ->
  b64decode (string_of_list_byte
               (List.filter (fun c => negb (Byte.eqb c BASE64_PAD)) (b64encode s)))
  = Raise binascii_Error.
Proof.
  intros Hlen. rewrite string_of_list_byte_ascii.
  - apply (a2b_base64_loop_unpadded s Hlen []).
  - apply forallb_filter_true, b64encode_ascii.
Qed.

Lemma b64decode_requires_padding_witness :
  b64decode "dGVzdA" = Raise binascii_Error.
Proof.
  apply (b64decode_requires_padding [x74; x65; x73; x74]).
  cbn. discriminate.
Defined.

Lemma a2b_base64_loop_skips (data : list byte) :
  forall quad_pos leftchar pads bin_data,
    a2b_base64_loop (List.filter (fun c => table_a2b_base64 c <? 64) data)
      quad_pos leftchar pads bin_data
    = a2b_base64_loop data quad_pos leftchar pads bin_data.
Proof.
  induction data as [|c data IH]; intros quad_pos leftchar pads bin_data;
    [reflexivity|].
  cbn [List.filter]. destruct (table_a2b_base64 c <? 64) eqn:Hc.
  - cbn [a2b_base64_loop].
    repeat match goal with
           | |- context [if ?b then _ else _] => destruct b
           end; (reflexivity || apply IH).
  - rewrite IH. cbn [a2b_base64_loop].
    assert (Hpad : Byte.eqb c BASE64_PAD = false).
    { destruct (Byte.eqb c BASE64_PAD) eqn:E; [|reflexivity].
      apply Byte.byte_dec_bl in E. subst c. discriminate. }
    rewrite Hpad.
    now replace (64 <=? table_a2b_base64 c) with true
      by (symmetry; apply N.leb_le; apply N.ltb_ge in Hc; exact Hc).
Qed.

(** Characters outside the alphabet do not count: [b64decode] gives for an
    ASCII string what it gives for the string without its characters that
    are neither of the alphabet nor the pad character. *)
Theorem b64decode_skips_non_alphabet (s : string) :
  isascii s = true ->
  b64decode (string_of_list_byte
               (List.filter (fun c => table_a2b_base64 c <? 64)
                  (list_byte_of_string s)))
  = b64decode s.
Proof.
  intros Hs.
  assert (Hbytes : forallb is_ascii_byte (list_byte_of_string s) = true).
  { now rewrite <- isascii_string_of_list_byte, string_of_list_byte_of_string. }
  rewrite string_of_list_byte_ascii by now apply forallb_filter_true.
  unfold b64decode, a2b_base64. rewrite Hs. apply a2b_base64_loop_skips.
Qed.

Lemma b64decode_skips_non_alphabet_witness :
  b64decode "dGVzdDp0ZXN0" = b64decode "dGVz dDp0_ZXN0!".
Proof.
  apply (b64decode_skips_non_alphabet "dGVz dDp0_ZXN0!").
  reflexivity.
Defined.
